(** * Protofito: joint angle, exercise phase and repetition counting

    A shallow embedding of the angle / phase / rep pipeline of [script.js]
    ([calculateJointAngle], [calculateAngle], [checkExerciseForm],
    [detectPose], [startExercise] and the global variables they share),
    followed by the properties of that pipeline.

    Number model.  A JavaScript number is embedded as [Js.number]: [NaN],
    the two infinities, or a finite value carried as a real.  The operators
    follow ECMAScript on the special values (0/0 is [NaN], x/0 is an
    infinity, every comparison with [NaN] is false, [Math.acos] outside
    [-1, 1] is [NaN]); on finite values they are the exact real operations,
    so rounding error, overflow and the sign of zero of IEEE doubles are not
    represented. *)

From Stdlib Require Import Reals Lra Lia ZArith NArith Bool Ascii String List.
From Stdlib Require Import Decimal DecimalString DecimalPos DecimalZ.
Import ListNotations.

Local Open Scope R_scope.

(** ** JavaScript numbers *)

Module Js.

Inductive number : Type :=
| NaN : number
| Inf (neg : bool) : number
| Fin (r : R) : number.

Definition Rltb (a b : R) : bool := if Rlt_dec a b then true else false.
Definition Reqb (a b : R) : bool := if Req_dec_T a b then true else false.

(** [x + y] *)
Definition add (x y : number) : number :=
  match x, y with
  | NaN, _ | _, NaN => NaN
  | Inf s, Inf t => if Bool.eqb s t then Inf s else NaN
  | Inf s, Fin _ => Inf s
  | Fin _, Inf t => Inf t
  | Fin a, Fin b => Fin (a + b)
  end.

(** [x - y] *)
Definition sub (x y : number) : number :=
  match x, y with
  | NaN, _ | _, NaN => NaN
  | Inf s, Inf t => if Bool.eqb s t then NaN else Inf s
  | Inf s, Fin _ => Inf s
  | Fin _, Inf t => Inf (negb t)
  | Fin a, Fin b => Fin (a - b)
  end.

(** [x * y] *)
Definition mul (x y : number) : number :=
  match x, y with
  | NaN, _ | _, NaN => NaN
  | Inf s, Inf t => Inf (xorb s t)
  | Inf s, Fin b => if Reqb b 0 then NaN else Inf (xorb s (Rltb b 0))
  | Fin a, Inf t => if Reqb a 0 then NaN else Inf (xorb (Rltb a 0) t)
  | Fin a, Fin b => Fin (a * b)
  end.

(** [x / y]; a zero divisor is the positive zero. *)
Definition div (x y : number) : number :=
  match x, y with
  | NaN, _ | _, NaN => NaN
  | Inf _, Inf _ => NaN
  | Inf s, Fin b => Inf (xorb s (Rltb b 0))
  | Fin _, Inf _ => Fin 0
  | Fin a, Fin b =>
      if Reqb b 0
      then (if Reqb a 0 then NaN else Inf (Rltb a 0))
      else Fin (a / b)
  end.

(** [x < y] *)
Definition ltb (x y : number) : bool :=
  match x, y with
  | NaN, _ | _, NaN => false
  | Inf s, Inf t => s && negb t
  | Inf s, Fin _ => s
  | Fin _, Inf t => negb t
  | Fin a, Fin b => Rltb a b
  end.

(** [x > y] *)
Definition gtb (x y : number) : bool := ltb y x.

(** [x == y] on numbers: [NaN] is not equal to itself. *)
Definition eqb (x y : number) : bool :=
  match x, y with
  | Inf s, Inf t => Bool.eqb s t
  | Fin a, Fin b => Reqb a b
  | _, _ => false
  end.

(** [Math.pow(x, n)] for an exponent that is a non-negative integer. *)
Definition Math_pow (x : number) (n : nat) : number :=
  match n with
  | O => Fin 1
  | S _ =>
      match x with
      | NaN => NaN
      | Inf s => Inf (s && Nat.odd n)
      | Fin r => Fin (r ^ n)
      end
  end.

(** [Math.sqrt(x)] *)
Definition Math_sqrt (x : number) : number :=
  match x with
  | NaN => NaN
  | Inf s => if s then NaN else Inf false
  | Fin r => if Rltb r 0 then NaN else Fin (sqrt r)
  end.

(** [Math.acos(x)]: [NaN] outside [-1, 1]. *)
Definition Math_acos (x : number) : number :=
  match x with
  | Fin r => if Rltb 1 r || Rltb r (-1) then NaN else Fin (acos r)
  | _ => NaN
  end.

(** [Math.sin(x)] *)
Definition Math_sin (x : number) : number :=
  match x with
  | Fin r => Fin (sin r)
  | _ => NaN
  end.

(** [Math.round(x)]: the integer nearest to [x], ties towards +infinity. *)
Definition Math_round (x : number) : number :=
  match x with
  | Fin r => Fin (IZR (Zfloor (r + / 2)))
  | _ => x
  end.

Definition Math_PI : number := Fin PI.

End Js.

Import Js.

Declare Scope js_scope.
Delimit Scope js_scope with js.
Bind Scope js_scope with number.
Infix "+" := add : js_scope.
Infix "-" := sub : js_scope.
Infix "*" := mul : js_scope.
Infix "/" := div : js_scope.
Infix "<?" := ltb : js_scope.
Infix ">?" := gtb : js_scope.
Coercion Fin : R >-> number.

(** ** Global variables *)

(** The values [poseState] and [lastPoseState] take besides [null]:
    the strings ['down'] and ['up']. *)
Inductive PoseState : Type := down | up.

Definition PoseState_eqb (p q : PoseState) : bool :=
  match p, q with
  | down, down | up, up => true
  | _, _ => false
  end.

(** [v === lit] for a variable holding [null] or a pose string. *)
Definition is_pose (v : option PoseState) (lit : PoseState) : bool :=
  match v with
  | Some p => PoseState_eqb p lit
  | None => false
  end.

Record Point : Type := mkPoint { x : number; y : number }.

Record Joints : Type := mkJoints {
  shoulders : Point;
  elbows : Point;
  wrists : Point;
  hips : Point;
  knees : Point;
  ankles : Point
}.

(** The mutable globals of the script, with the page elements the tracking
    functions write to.  [repsCount] starts at 0 and is only ever
    incremented, so it is carried as a natural number. The text of
    [angleLabelElement] and of [repsCountElement] is carried as the number
    it renders. *)
Record State : Type := mkState {
  stream : bool;
  isRunning : bool;
  startTime : option Z;
  repsCount : N;
  lastPoseState : option PoseState;
  currentAngle : number;
  joints : Joints;
  canvasWidth : number;
  canvasHeight : number;
  angleLabel : number;
  postureFeedbackText : string;
  postureFeedbackClass : string;
  repsCountText : N
}.

Definition set_stream (v : bool) (s : State) : State :=
  mkState v (isRunning s) (startTime s) (repsCount s) (lastPoseState s)
    (currentAngle s) (joints s) (canvasWidth s) (canvasHeight s)
    (angleLabel s) (postureFeedbackText s) (postureFeedbackClass s)
    (repsCountText s).

Definition set_isRunning (v : bool) (s : State) : State :=
  mkState (stream s) v (startTime s) (repsCount s) (lastPoseState s)
    (currentAngle s) (joints s) (canvasWidth s) (canvasHeight s)
    (angleLabel s) (postureFeedbackText s) (postureFeedbackClass s)
    (repsCountText s).

Definition set_startTime (v : option Z) (s : State) : State :=
  mkState (stream s) (isRunning s) v (repsCount s) (lastPoseState s)
    (currentAngle s) (joints s) (canvasWidth s) (canvasHeight s)
    (angleLabel s) (postureFeedbackText s) (postureFeedbackClass s)
    (repsCountText s).

Definition set_repsCount (v : N) (s : State) : State :=
  mkState (stream s) (isRunning s) (startTime s) v (lastPoseState s)
    (currentAngle s) (joints s) (canvasWidth s) (canvasHeight s)
    (angleLabel s) (postureFeedbackText s) (postureFeedbackClass s)
    (repsCountText s).

Definition set_lastPoseState (v : option PoseState) (s : State) : State :=
  mkState (stream s) (isRunning s) (startTime s) (repsCount s) v
    (currentAngle s) (joints s) (canvasWidth s) (canvasHeight s)
    (angleLabel s) (postureFeedbackText s) (postureFeedbackClass s)
    (repsCountText s).

Definition set_currentAngle (v : number) (s : State) : State :=
  mkState (stream s) (isRunning s) (startTime s) (repsCount s)
    (lastPoseState s) v (joints s) (canvasWidth s) (canvasHeight s)
    (angleLabel s) (postureFeedbackText s) (postureFeedbackClass s)
    (repsCountText s).

Definition set_joints (v : Joints) (s : State) : State :=
  mkState (stream s) (isRunning s) (startTime s) (repsCount s)
    (lastPoseState s) (currentAngle s) v (canvasWidth s) (canvasHeight s)
    (angleLabel s) (postureFeedbackText s) (postureFeedbackClass s)
    (repsCountText s).

Definition set_canvas (w h : number) (s : State) : State :=
  mkState (stream s) (isRunning s) (startTime s) (repsCount s)
    (lastPoseState s) (currentAngle s) (joints s) w h
    (angleLabel s) (postureFeedbackText s) (postureFeedbackClass s)
    (repsCountText s).

Definition set_angleLabel (v : number) (s : State) : State :=
  mkState (stream s) (isRunning s) (startTime s) (repsCount s)
    (lastPoseState s) (currentAngle s) (joints s) (canvasWidth s)
    (canvasHeight s) v (postureFeedbackText s) (postureFeedbackClass s)
    (repsCountText s).

Definition set_postureFeedback (text cls : string) (s : State) : State :=
  mkState (stream s) (isRunning s) (startTime s) (repsCount s)
    (lastPoseState s) (currentAngle s) (joints s) (canvasWidth s)
    (canvasHeight s) (angleLabel s) text cls (repsCountText s).

Definition set_repsCountText (v : N) (s : State) : State :=
  mkState (stream s) (isRunning s) (startTime s) (repsCount s)
    (lastPoseState s) (currentAngle s) (joints s) (canvasWidth s)
    (canvasHeight s) (angleLabel s) (postureFeedbackText s)
    (postureFeedbackClass s) v.

Definition set_postureFeedbackText (text : string) (s : State) : State :=
  set_postureFeedback text (postureFeedbackClass s) s.

(** The globals as the script's top-level declarations leave them; the
    canvas size and the class of the feedback element come from the page. *)
Definition origin : Point := mkPoint (Fin 0) (Fin 0).

Definition globals (w h : number) (cls : string) : State :=
  mkState false false None 0%N None (Fin 0)
    (mkJoints origin origin origin origin origin origin)
    w h (Fin 0) EmptyString cls 0%N.

(** ** The program *)

Local Open Scope js_scope.

(** [initCanvas], with the size of the video as input. *)
Definition initCanvas (videoWidth videoHeight : number) (s : State) : State :=
  set_canvas videoWidth videoHeight s.

(** [startExercise] up to the point where it returns: [granted] tells
    whether [getUserMedia] resolved; when it rejects, the [catch] branch
    runs. *)
Definition startExercise (granted : bool) (s : State) : State :=
  if granted
  then set_stream true s
  else set_postureFeedback "Error accessing webcam"
         "feedback-text feedback-incorrect" s.

(** The [onloadedmetadata] handler that [startExercise] installs; [now] is
    the value of [new Date()]. *)
Definition onloadedmetadata (videoWidth videoHeight : number) (now : Z)
    (s : State) : State :=
  let s := initCanvas videoWidth videoHeight s in
  let s := set_isRunning true s in
  let s := set_startTime (Some now) s in
  set_postureFeedback "Starting detection..." "feedback-text" s.

(** [stopExercise] *)
Definition stopExercise (s : State) : State :=
  let s := set_isRunning false s in
  set_postureFeedback "Detection stopped" "feedback-text" s.

(** [simulateJointDetection]; [now] is the value of [Date.now()]. *)
Definition simulateJointDetection (now : number) (s : State) : State :=
  let centerX := canvasWidth s / Fin 2 in
  let centerY := canvasHeight s / Fin 2 in
  let time := now / Fin 1000 in
  set_joints
    (mkJoints
       (mkPoint centerX (centerY - Fin 80 + Math_sin time * Fin 10))
       (mkPoint (centerX + Fin 60)
                (centerY - Fin 40 + Math_sin (time * Fin (3 / 2)) * Fin 20))
       (mkPoint (centerX + Fin 100)
                (centerY + Math_sin (time * Fin 2) * Fin 30))
       (mkPoint centerX (centerY + Fin 50))
       (mkPoint (centerX + Fin 30)
                (centerY + Fin 120 + Math_sin time * Fin 10))
       (mkPoint (centerX + Fin 60) (centerY + Fin 180)))
    s.

(** [calculateJointAngle] *)
Definition calculateJointAngle (x1 y1 x2 y2 x3 y3 : number) : number :=
  let a := Math_sqrt (Math_pow (x2 - x3) 2 + Math_pow (y2 - y3) 2) in
  let b := Math_sqrt (Math_pow (x1 - x3) 2 + Math_pow (y1 - y3) 2) in
  let c := Math_sqrt (Math_pow (x1 - x2) 2 + Math_pow (y1 - y2) 2) in
  let angleRad := Math_acos ((a * a + c * c - b * b) / (Fin 2 * a * c)) in
  angleRad * (Fin 180 / Math_PI).

(** The last two statements of [calculateAngle]: the angle is rounded,
    stored in [currentAngle] and shown. *)
Definition storeAngle (angle : number) (s : State) : State :=
  let s := set_currentAngle (Math_round angle) s in
  set_angleLabel (currentAngle s) s.

(** The angle at the elbow of a set of joints, as [calculateAngle] calls
    [calculateJointAngle]. *)
Definition elbowAngle (j : Joints) : number :=
  calculateJointAngle
    (x (shoulders j)) (y (shoulders j))
    (x (elbows j)) (y (elbows j))
    (x (wrists j)) (y (wrists j)).

(** [calculateAngle] *)
Definition calculateAngle (s : State) : State :=
  let angle := elbowAngle (joints s) in
  storeAngle angle s.

(** [checkExerciseForm] *)
Definition checkExerciseForm (s : State) : State :=
  let '(poseState, s) :=
    if currentAngle s <? Fin 90 then
      (Some down,
       set_postureFeedback "Good form - Push Up Bottom Position"
         "feedback-text feedback-correct" s)
    else if currentAngle s >? Fin 160 then
      (Some up,
       set_postureFeedback "Good form - Push Up Top Position"
         "feedback-text feedback-correct" s)
    else
      (None,
       set_postureFeedback "Continue your movement" "feedback-text" s) in
  let s :=
    if is_pose (lastPoseState s) down && is_pose poseState up then
      let s := set_repsCount (repsCount s + 1)%N s in
      set_repsCountText (repsCount s) s
    else s in
  set_lastPoseState poseState s.

(** [detectPose]: one processed frame.  Drawing on the canvas changes no
    variable and is left out. *)
Definition detectPose (now : number) (s : State) : State :=
  if negb (isRunning s) then s
  else
    let s := simulateJointDetection now s in
    let s := calculateAngle s in
    checkExerciseForm s.

(** [initUI] *)
Definition initUI (s : State) : State :=
  let s := set_repsCountText 0%N s in
  let s := set_angleLabel (Fin 0) s in
  set_postureFeedbackText "Ready to start" s.

(** The state once the script and its [load] handler have run. *)
Definition loaded (w h : number) (cls : string) : State :=
  initUI (globals w h cls).

(** ** Derived notions used by the statements *)

(** The value [checkExerciseForm] gives to [poseState] for an angle:
    [null] stands for the phase between the two thresholds. *)
Definition poseStateOf (angle : number) : option PoseState :=
  if angle <? Fin 90 then Some down
  else if angle >? Fin 160 then Some up
  else None.

(** One tick of the tracker on the angle [angle]: [currentAngle] holds
    [angle] when [checkExerciseForm] runs. *)
Definition feed (angle : number) (s : State) : State :=
  checkExerciseForm (set_currentAngle angle s).

(** Consecutive ticks. *)
Fixpoint feedAll (angles : list number) (s : State) : State :=
  match angles with
  | [] => s
  | angle :: rest => feedAll rest (feed angle s)
  end.

(** The events that drive the program, and the program run on a trace of
    them. *)
Inductive Event : Type :=
| StartClicked (granted : bool)
| MetadataLoaded (videoWidth videoHeight : number) (now : Z)
| StopClicked
| Frame (now : number).

Definition step (e : Event) (s : State) : State :=
  match e with
  | StartClicked granted => startExercise granted s
  | MetadataLoaded w h now => onloadedmetadata w h now s
  | StopClicked => stopExercise s
  | Frame now => detectPose now s
  end.

Fixpoint run (trace : list Event) (s : State) : State :=
  match trace with
  | [] => s
  | e :: rest => run rest (step e s)
  end.

Local Close Scope js_scope.

(** Whether an event is a processed frame. *)
Definition is_frame (e : Event) : bool :=
  match e with
  | Frame _ => true
  | _ => false
  end.

(** The angle at [v] between [a] and [b], as [calculateJointAngle] takes
    its six arguments. *)
Definition angleAt (a v b : Point) : number :=
  calculateJointAngle (x a) (y a) (x v) (y v) (x b) (y b).

(** A point with finite coordinates. *)
Definition pt (px py : R) : Point := mkPoint (Fin px) (Fin py).

(** Length of the segment between two finite points. *)
Definition dist (px py qx qy : R) : R :=
  sqrt ((px - qx) ^ 2 + (py - qy) ^ 2).

(** What a frame leaves in the variables and page elements of the
    tracker. *)
Definition tracked (s : State)
    : option PoseState * N * number * number * string * string * N :=
  (lastPoseState s, repsCount s, currentAngle s, angleLabel s,
   postureFeedbackText s, postureFeedbackClass s, repsCountText s).

(** The state used in the examples: the page just loaded, with a 640 by
    480 canvas. *)
Definition fresh : State := loaded (Fin 640) (Fin 480) "feedback-text".

Arguments ltb : simpl never.
Arguments gtb : simpl never.
Arguments feed : simpl never.

(** ** Timer display *)

(** [n.toString()] for a number that is an integer. *)
Definition numberToString (n : Z) : string :=
  NilZero.string_of_int (Z.to_int n).

Fixpoint repeatChar (c : ascii) (n : nat) : string :=
  match n with
  | O => EmptyString
  | S n' => String c (repeatChar c n')
  end.

(** [s.padStart(targetLength, c)] for a one-character pad string. *)
Definition padStart (targetLength : nat) (c : ascii) (s : string) : string :=
  append (repeatChar c (targetLength - String.length s)) s.

(** [updateTimer]: [currentTime] is the value of [new Date()] in
    milliseconds, [shown] the text of [durationTimerElement] before the
    call; the result is its text after the call. *)
Definition updateTimer (currentTime : Z) (s : State) (shown : string)
    : string :=
  match startTime s with
  | None => shown
  | Some start =>
      let elapsedTime := ((currentTime - start) / 1000)%Z in
      let minutes := padStart 2 "0" (numberToString (elapsedTime / 60)%Z) in
      let seconds := padStart 2 "0" (numberToString (Z.rem elapsedTime 60)) in
      append minutes (append ":" seconds)
  end.

(** Reads back a decimal numeral, leading zeros allowed. *)
Definition readNumber (s : string) : option Z :=
  option_map Z.of_int (NilZero.int_of_string s).

(** ** Exercise details *)

Record BodyFocus : Type := mkBodyFocus {
  arms : N;
  chest : N;
  core : N
}.

Record Exercise : Type := mkExercise {
  title : string;
  image : string;
  description : string;
  tips : list string;
  bodyFocus : BodyFocus
}.

Definition standardPushUp : Exercise :=
  mkExercise "Standard Push Up" "standard-pushup.svg"
    "The standard push-up is a classic exercise that targets the chest, shoulders, triceps, and core."
    [ "Keep your body in a straight line";
      "Position hands slightly wider than shoulder-width";
      "Lower until chest nearly touches the floor";
      "Push back up to starting position" ]%string
    (mkBodyFocus 60 95 40).

Definition widePushUp : Exercise :=
  mkExercise "Wide Push Up" "wide-pushup.svg"
    "Wide push-ups place more emphasis on the chest muscles by positioning the hands wider than shoulder-width apart."
    [ "Place hands wider than shoulder-width";
      "Keep elbows at a 45-degree angle";
      "Lower until chest nearly touches the floor";
      "Focus on squeezing chest muscles" ]%string
    (mkBodyFocus 60 95 40).

Definition diamondPushUp : Exercise :=
  mkExercise "Diamond Push Up" "diamond-pushup.svg"
    "Diamond push-ups target the triceps more intensely by positioning the hands close together in a diamond shape."
    [ "Form a diamond shape with your thumbs and index fingers";
      "Position hands directly under your chest";
      "Keep elbows close to your body";
      "Lower until chest touches your hands" ]%string
    (mkBodyFocus 90 60 50).

Definition inclinePushUp : Exercise :=
  mkExercise "Incline Push Up" "incline-pushup.svg"
    "Incline push-ups are easier than standard push-ups and are great for beginners. They place less stress on the shoulders and arms."
    [ "Place hands on an elevated surface";
      "Keep body straight from head to heels";
      "Lower chest toward the elevated surface";
      "Push back up to starting position" ]%string
    (mkBodyFocus 50 75 35).

Definition declinePushUp : Exercise :=
  mkExercise "Decline Push Up" "decline-pushup.svg"
    "Decline push-ups are more challenging than standard push-ups and place more emphasis on the upper chest and shoulders."
    [ "Place feet on an elevated surface";
      "Position hands on the floor at shoulder width";
      "Lower until chest nearly touches the floor";
      "Engage core throughout the movement" ]%string
    (mkBodyFocus 75 90 65).

(** The own properties of [exerciseData], in the order of the source. *)
Definition exerciseData : list (string * Exercise) :=
  [ ("standard", standardPushUp);
    ("wide", widePushUp);
    ("diamond", diamondPushUp);
    ("incline", inclinePushUp);
    ("decline", declinePushUp) ]%string.

(** [exerciseData[variation]] when [variation] names an own property. *)
Fixpoint lookup (key : string) (table : list (string * Exercise))
    : option Exercise :=
  match table with
  | [] => None
  | (k, v) :: rest => if String.eqb key k then Some v else lookup key rest
  end.

(** The page elements [updateExerciseDetails] writes: texts, the source and
    alternative text of the image, the items of the tips list, and the
    width and text of the three progress bars. *)
Record Details : Type := mkDetails {
  exerciseTitleText : string;
  exerciseDescriptionText : string;
  exerciseImageSrc : string;
  exerciseImageAlt : string;
  formTips : list string;
  armsProgressWidth : string;
  armsProgressText : string;
  chestProgressWidth : string;
  chestProgressText : string;
  coreProgressWidth : string;
  coreProgressText : string
}.

Definition set_exerciseTitleText (v : string) (d : Details) : Details :=
  mkDetails v (exerciseDescriptionText d) (exerciseImageSrc d)
    (exerciseImageAlt d) (formTips d) (armsProgressWidth d)
    (armsProgressText d) (chestProgressWidth d) (chestProgressText d)
    (coreProgressWidth d) (coreProgressText d).

Definition set_exerciseDescriptionText (v : string) (d : Details) : Details :=
  mkDetails (exerciseTitleText d) v (exerciseImageSrc d)
    (exerciseImageAlt d) (formTips d) (armsProgressWidth d)
    (armsProgressText d) (chestProgressWidth d) (chestProgressText d)
    (coreProgressWidth d) (coreProgressText d).

Definition set_exerciseImageSrc (v : string) (d : Details) : Details :=
  mkDetails (exerciseTitleText d) (exerciseDescriptionText d) v
    (exerciseImageAlt d) (formTips d) (armsProgressWidth d)
    (armsProgressText d) (chestProgressWidth d) (chestProgressText d)
    (coreProgressWidth d) (coreProgressText d).

Definition set_exerciseImageAlt (v : string) (d : Details) : Details :=
  mkDetails (exerciseTitleText d) (exerciseDescriptionText d)
    (exerciseImageSrc d) v (formTips d) (armsProgressWidth d)
    (armsProgressText d) (chestProgressWidth d) (chestProgressText d)
    (coreProgressWidth d) (coreProgressText d).

Definition set_formTips (v : list string) (d : Details) : Details :=
  mkDetails (exerciseTitleText d) (exerciseDescriptionText d)
    (exerciseImageSrc d) (exerciseImageAlt d) v (armsProgressWidth d)
    (armsProgressText d) (chestProgressWidth d) (chestProgressText d)
    (coreProgressWidth d) (coreProgressText d).

Definition set_armsProgressWidth (v : string) (d : Details) : Details :=
  mkDetails (exerciseTitleText d) (exerciseDescriptionText d)
    (exerciseImageSrc d) (exerciseImageAlt d) (formTips d) v
    (armsProgressText d) (chestProgressWidth d) (chestProgressText d)
    (coreProgressWidth d) (coreProgressText d).

Definition set_armsProgressText (v : string) (d : Details) : Details :=
  mkDetails (exerciseTitleText d) (exerciseDescriptionText d)
    (exerciseImageSrc d) (exerciseImageAlt d) (formTips d)
    (armsProgressWidth d) v (chestProgressWidth d) (chestProgressText d)
    (coreProgressWidth d) (coreProgressText d).

Definition set_chestProgressWidth (v : string) (d : Details) : Details :=
  mkDetails (exerciseTitleText d) (exerciseDescriptionText d)
    (exerciseImageSrc d) (exerciseImageAlt d) (formTips d)
    (armsProgressWidth d) (armsProgressText d) v (chestProgressText d)
    (coreProgressWidth d) (coreProgressText d).

Definition set_chestProgressText (v : string) (d : Details) : Details :=
  mkDetails (exerciseTitleText d) (exerciseDescriptionText d)
    (exerciseImageSrc d) (exerciseImageAlt d) (formTips d)
    (armsProgressWidth d) (armsProgressText d) (chestProgressWidth d) v
    (coreProgressWidth d) (coreProgressText d).

Definition set_coreProgressWidth (v : string) (d : Details) : Details :=
  mkDetails (exerciseTitleText d) (exerciseDescriptionText d)
    (exerciseImageSrc d) (exerciseImageAlt d) (formTips d)
    (armsProgressWidth d) (armsProgressText d) (chestProgressWidth d)
    (chestProgressText d) v (coreProgressText d).

Definition set_coreProgressText (v : string) (d : Details) : Details :=
  mkDetails (exerciseTitleText d) (exerciseDescriptionText d)
    (exerciseImageSrc d) (exerciseImageAlt d) (formTips d)
    (armsProgressWidth d) (armsProgressText d) (chestProgressWidth d)
    (chestProgressText d) (coreProgressWidth d) v.

(** [n + '%'] *)
Definition percent (n : N) : string :=
  append (numberToString (Z.of_N n)) "%".

(** The [forEach] over the tips: one [li] appended to the list per tip. *)
Fixpoint appendTips (tipsToAdd : list string) (d : Details) : Details :=
  match tipsToAdd with
  | [] => d
  | tip :: rest => appendTips rest (set_formTips (formTips d ++ [tip]) d)
  end.

(** [updateExerciseDetails].  [None] stands for the [TypeError] raised
    when [exerciseData[variation]] has no [title] or no [tips] to read,
    which is the case for every [variation] that is not an own property
    of [exerciseData]; the elements written before the exception is raised
    are not represented. *)
Definition updateExerciseDetails (variation : string) (d : Details)
    : option Details :=
  match lookup variation exerciseData with
  | None => None
  | Some data =>
      let d := set_exerciseTitleText (title data) d in
      let d := set_exerciseDescriptionText (description data) d in
      let d := set_exerciseImageSrc (image data) d in
      let d := set_exerciseImageAlt (title data) d in
      let d := set_formTips [] d in
      let d := appendTips (tips data) d in
      let d := set_armsProgressWidth (percent (arms (bodyFocus data))) d in
      let d := set_armsProgressText (percent (arms (bodyFocus data))) d in
      let d := set_chestProgressWidth (percent (chest (bodyFocus data))) d in
      let d := set_chestProgressText (percent (chest (bodyFocus data))) d in
      let d := set_coreProgressWidth (percent (core (bodyFocus data))) d in
      let d := set_coreProgressText (percent (core (bodyFocus data))) d in
      Some d
  end.

(** The variations [exerciseData] has an entry for. *)
Definition variations : list string :=
  [ "standard"; "wide"; "diamond"; "incline"; "decline" ]%string.

(** A page whose elements are all empty, and what the [load] handler
    shows on it with [updateExerciseDetails('standard')]. *)
Definition blankDetails : Details :=
  mkDetails EmptyString EmptyString EmptyString EmptyString []
    EmptyString EmptyString EmptyString EmptyString EmptyString EmptyString.

Definition shownAtLoad : option Details :=
  updateExerciseDetails "standard" blankDetails.

(** ** Counting on a sequence of phases *)

(** Number of places in a sequence of phases where Down is directly
    followed by Up, [prev] being the phase before the first. *)
Fixpoint downUpEdges (prev : option PoseState)
    (phases : list (option PoseState)) : N :=
  match phases with
  | [] => 0%N
  | p :: rest =>
      ((if is_pose prev down && is_pose p up then 1 else 0)
       + downUpEdges p rest)%N
  end.

(** The two displays agree with the variables they show. *)
Definition displays_agree (s : State) : Prop :=
  repsCountText s = repsCount s /\ angleLabel s = currentAngle s.

(** An angle in whole degrees between 0 and 180, or [NaN]. *)
Definition whole_degrees (a : number) : Prop :=
  a = NaN \/ exists z : Z, (0 <= z <= 180)%Z /\ a = Fin (IZR z).

(** ** Real comparisons *)

Lemma Rltb_true (a b : R) : a < b -> Rltb a b = true.
Proof. intros H; unfold Rltb; destruct (Rlt_dec a b); [reflexivity | lra]. Qed.

Lemma Rltb_false (a b : R) : b <= a -> Rltb a b = false.
Proof. intros H; unfold Rltb; destruct (Rlt_dec a b); [lra | reflexivity]. Qed.

Lemma Rltb_iff (a b : R) : Rltb a b = true <-> a < b.
Proof.
  unfold Rltb; destruct (Rlt_dec a b); split; intros; try easy; discriminate.
Qed.

Lemma Reqb_true (a b : R) : a = b -> Reqb a b = true.
Proof.
  intros H; unfold Reqb; destruct (Req_dec_T a b); [reflexivity | contradiction].
Qed.

Lemma Reqb_false (a b : R) : a <> b -> Reqb a b = false.
Proof.
  intros H; unfold Reqb; destruct (Req_dec_T a b); [contradiction | reflexivity].
Qed.

(** Decides a comparison between two numerals. *)
Ltac cmp :=
  repeat match goal with
  | |- context [Rltb ?a ?b] =>
      first [ rewrite (Rltb_true a b) by lra
            | rewrite (Rltb_false a b) by lra ]
  | |- context [Reqb ?a ?b] =>
      first [ rewrite (Reqb_true a b) by lra
            | rewrite (Reqb_false a b) by lra ]
  end.

Ltac pose_of :=
  unfold poseStateOf, gtb, ltb; cbn; cmp; cbn; try reflexivity.

(** ** What one tick does to the tracker variables *)

Lemma checkExerciseForm_lastPoseState (s : State) :
  lastPoseState (checkExerciseForm s) = poseStateOf (currentAngle s).
Proof.
  unfold checkExerciseForm, poseStateOf.
  destruct (ltb (currentAngle s) (Fin 90)); simpl.
  - destruct (is_pose (lastPoseState s) down && false); reflexivity.
  - destruct (gtb (currentAngle s) (Fin 160)); simpl.
    + destruct (is_pose (lastPoseState s) down); reflexivity.
    + destruct (is_pose (lastPoseState s) down && false); reflexivity.
Qed.

Lemma checkExerciseForm_repsCount (s : State) :
  repsCount (checkExerciseForm s) =
  if is_pose (lastPoseState s) down && is_pose (poseStateOf (currentAngle s)) up
  then (repsCount s + 1)%N else repsCount s.
Proof.
  unfold checkExerciseForm, poseStateOf.
  destruct (ltb (currentAngle s) (Fin 90)); simpl.
  - destruct (is_pose (lastPoseState s) down); reflexivity.
  - destruct (gtb (currentAngle s) (Fin 160)); simpl.
    + destruct (is_pose (lastPoseState s) down); reflexivity.
    + destruct (is_pose (lastPoseState s) down); reflexivity.
Qed.

Lemma feed_lastPoseState (a : number) (s : State) :
  lastPoseState (feed a s) = poseStateOf a.
Proof. unfold feed; now rewrite checkExerciseForm_lastPoseState. Qed.

Lemma feed_repsCount (a : number) (s : State) :
  repsCount (feed a s) =
  if is_pose (lastPoseState s) down && is_pose (poseStateOf a) up
  then (repsCount s + 1)%N else repsCount s.
Proof. unfold feed; now rewrite checkExerciseForm_repsCount. Qed.

Lemma is_pose_iff (v : option PoseState) (p : PoseState) :
  is_pose v p = true <-> v = Some p.
Proof.
  destruct v as [[|]|], p; simpl; split; intros H;
    try reflexivity; try discriminate.
Qed.

Lemma poseStateOf_Fin (r : R) :
  poseStateOf (Fin r) =
  if Rltb r 90 then Some down else if Rltb 160 r then Some up else None.
Proof. reflexivity. Qed.

Lemma poseStateOf_down_iff (r : R) : poseStateOf (Fin r) = Some down <-> r < 90.
Proof.
  rewrite poseStateOf_Fin, <- Rltb_iff.
  destruct (Rltb r 90); [easy |].
  destruct (Rltb 160 r); split; intros H; discriminate.
Qed.

Lemma poseStateOf_up_iff (r : R) : poseStateOf (Fin r) = Some up <-> 160 < r.
Proof.
  rewrite poseStateOf_Fin.
  destruct (Rltb r 90) eqn:E.
  - apply Rltb_iff in E. split; [discriminate | lra].
  - rewrite <- Rltb_iff. destruct (Rltb 160 r); split; intros H;
      try reflexivity; discriminate.
Qed.

Lemma poseStateOf_null_iff (r : R) :
  poseStateOf (Fin r) = None <-> 90 <= r <= 160.
Proof.
  rewrite poseStateOf_Fin. unfold Rltb.
  destruct (Rlt_dec r 90); [split; [discriminate | lra] |].
  destruct (Rlt_dec 160 r); split; intros H;
    try discriminate; try reflexivity; lra.
Qed.

(** The tracker variables that the remaining functions leave alone. *)
Lemma startExercise_tracker (granted : bool) (s : State) :
  repsCount (startExercise granted s) = repsCount s /\
  lastPoseState (startExercise granted s) = lastPoseState s /\
  currentAngle (startExercise granted s) = currentAngle s.
Proof. destruct granted; repeat split. Qed.

Lemma onloadedmetadata_tracker (w h : number) (now : Z) (s : State) :
  repsCount (onloadedmetadata w h now s) = repsCount s /\
  lastPoseState (onloadedmetadata w h now s) = lastPoseState s /\
  currentAngle (onloadedmetadata w h now s) = currentAngle s.
Proof. repeat split. Qed.

Lemma detectPose_repsCount (now : number) (s : State) :
  (repsCount s <= repsCount (detectPose now s))%N.
Proof.
  unfold detectPose. destruct (isRunning s); simpl; [| lia].
  rewrite checkExerciseForm_repsCount. simpl.
  match goal with |- context [if ?b then _ else _] => destruct b end; lia.
Qed.

Lemma step_repsCount (e : Event) (s : State) :
  (repsCount s <= repsCount (step e s))%N.
Proof.
  destruct e as [granted | w h now | | now]; simpl.
  - destruct granted; simpl; lia.
  - lia.
  - lia.
  - apply detectPose_repsCount.
Qed.

Lemma feed_repsCount_le (a : number) (s : State) :
  (repsCount s <= repsCount (feed a s))%N.
Proof.
  rewrite feed_repsCount.
  match goal with |- context [if ?b then _ else _] => destruct b end; lia.
Qed.

(** ** Phase classification *)

(** C2, as stated, fails: the angles 90 and 160 themselves are classified
    as neither Down nor Up. *)
Lemma boundary_angles_are_between :
  lastPoseState (feed (Fin 90) fresh) = None /\
  lastPoseState (feed (Fin 90) fresh) <> Some down /\
  lastPoseState (feed (Fin 160) fresh) = None /\
  lastPoseState (feed (Fin 160) fresh) <> Some up.
Proof.
  rewrite !feed_lastPoseState.
  assert (H90 : poseStateOf (Fin 90) = None) by pose_of.
  assert (H160 : poseStateOf (Fin 160) = None) by pose_of.
  rewrite H90, H160. repeat split; discriminate.
Qed.

(** C2 (amended): with the thresholds 90 and 160 of the source, a tick on
    an angle records Down exactly when the angle is strictly below 90, Up
    exactly when it is strictly above 160, and the in-between phase
    ([null]) exactly when it lies in the closed interval from 90 to 160.
    Of the angles that are not finite, minus infinity is Down, plus
    infinity is Up and [NaN] is in between. *)
Theorem phase_classification (s : State) (r : R) :
  (lastPoseState (feed (Fin r) s) = Some down <-> r < 90) /\
  (lastPoseState (feed (Fin r) s) = Some up <-> 160 < r) /\
  (lastPoseState (feed (Fin r) s) = None <-> 90 <= r <= 160) /\
  lastPoseState (feed (Inf true) s) = Some down /\
  lastPoseState (feed (Inf false) s) = Some up /\
  lastPoseState (feed NaN s) = None.
Proof.
  rewrite !feed_lastPoseState.
  split; [apply poseStateOf_down_iff |].
  split; [apply poseStateOf_up_iff |].
  split; [apply poseStateOf_null_iff |].
  repeat split.
Qed.

(** ** Rep counting *)

(** C5: on every tick [repsCount] goes up, by one, if and only if the
    phase recorded by the previous tick is Down and the phase computed on
    this tick is Up; otherwise it is unchanged.  So Up followed by Down does
    not count, and a tick in the in-between phase does not count. *)
Theorem rep_counted_iff_down_then_up (s : State) (prev angle : number) :
  let s1 := feed prev s in
  let s2 := feed angle s1 in
  lastPoseState s1 = poseStateOf prev /\
  (repsCount s2 = (repsCount s1 + 1)%N <->
     lastPoseState s1 = Some down /\ poseStateOf angle = Some up) /\
  (repsCount s2 = repsCount s1 <->
     ~ (lastPoseState s1 = Some down /\ poseStateOf angle = Some up)) /\
  (poseStateOf prev = Some up -> poseStateOf angle = Some down ->
     repsCount s2 = repsCount s1) /\
  (poseStateOf angle = None -> repsCount s2 = repsCount s1) /\
  (poseStateOf prev = None -> repsCount s2 = repsCount s1).
Proof.
  cbv zeta.
  rewrite (feed_repsCount angle), !feed_lastPoseState.
  destruct (poseStateOf prev) as [[|]|], (poseStateOf angle) as [[|]|];
    simpl; repeat split; intros; try lia; try discriminate;
    try match goal with
      | H : _ /\ _ |- _ => destruct H; discriminate
      | H : ~ _ |- _ => exfalso; apply H; split; reflexivity
      | |- ~ _ => intros [? ?]; discriminate
      end.
Qed.

(** The angles used in the examples. *)
Lemma poseStateOf_80 : poseStateOf (Fin 80) = Some down.
Proof. pose_of. Qed.

Lemma poseStateOf_120 : poseStateOf (Fin 120) = None.
Proof. pose_of. Qed.

Lemma poseStateOf_170 : poseStateOf (Fin 170) = Some up.
Proof. pose_of. Qed.

Lemma poseStateOf_NaN : poseStateOf NaN = None.
Proof. reflexivity. Qed.

(** Evaluates ticks on the example angles. *)
Ltac ticks :=
  unfold feedAll; cbn;
  repeat (first
    [ rewrite feed_repsCount
    | rewrite feed_lastPoseState
    | rewrite poseStateOf_80
    | rewrite poseStateOf_120
    | rewrite poseStateOf_170
    | rewrite poseStateOf_NaN ]; cbn).

(** C1, as stated, fails: Down, then the in-between phase, then Up leaves
    the count where it was; no rep is counted on the Up tick. *)
Lemma down_between_up_not_counted :
  lastPoseState (feed (Fin 80) fresh) = Some down /\
  lastPoseState (feedAll [Fin 80; Fin 120] fresh) = None /\
  lastPoseState (feedAll [Fin 80; Fin 120; Fin 170] fresh) = Some up /\
  repsCount (feedAll [Fin 80; Fin 120] fresh) = 0%N /\
  repsCount (feedAll [Fin 80; Fin 120; Fin 170] fresh) = 0%N.
Proof. repeat split; ticks; reflexivity. Qed.

(** C1 (amended): every tick sets [lastPoseState] to the phase just
    computed, the in-between phase ([null]) included.  Hence a Down tick,
    an in-between tick and an Up tick in a row leave [repsCount] unchanged
    (the Up tick finds [null] recorded), while a Down tick directly followed
    by an Up tick increments it exactly once, on the Up tick. *)
Theorem lastPoseState_always_overwritten (s : State) (d t u : number) :
  poseStateOf d = Some down ->
  poseStateOf t = None ->
  poseStateOf u = Some up ->
  (forall (s' : State) (a : number),
     lastPoseState (feed a s') = poseStateOf a) /\
  lastPoseState (feedAll [d; t] s) = None /\
  repsCount (feedAll [d; t; u] s) = repsCount s /\
  repsCount (feed d s) = repsCount s /\
  repsCount (feedAll [d; u] s) = (repsCount s + 1)%N.
Proof.
  intros Hd Ht Hu. split; [intros; apply feed_lastPoseState |].
  unfold feedAll.
  rewrite !feed_repsCount, !feed_lastPoseState, Hd, Ht, Hu. cbn.
  rewrite !andb_false_r. repeat split; reflexivity.
Qed.

Lemma lastPoseState_always_overwritten_witness :
  repsCount (feedAll [Fin 80; Fin 120; Fin 170] fresh) = repsCount fresh /\
  repsCount (feedAll [Fin 80; Fin 170] fresh) = (repsCount fresh + 1)%N.
Proof.
  pose proof (lastPoseState_always_overwritten fresh (Fin 80) (Fin 120)
                (Fin 170) poseStateOf_80 poseStateOf_120 poseStateOf_170)
    as (_ & _ & H3 & _ & H2).
  split; assumption.
Defined.

(** The sequences of the test plan, from the loaded state: one clean rep,
    holding the Up position, and going back down. *)
Lemma single_clean_rep :
  map (fun n => repsCount
                  (feedAll (firstn n [Fin 170; Fin 170; Fin 80; Fin 80; Fin 170])
                     fresh))
      [1; 2; 3; 4; 5]%nat
  = [0; 0; 0; 0; 1]%N.
Proof. cbn [map firstn]. repeat f_equal; ticks; reflexivity. Qed.

Lemma no_double_count_on_hold :
  repsCount (feedAll [Fin 80; Fin 170] fresh) = 1%N /\
  repsCount (feedAll [Fin 80; Fin 170; Fin 170; Fin 170; Fin 170] fresh) = 1%N.
Proof. split; ticks; reflexivity. Qed.

Lemma no_count_on_reverse :
  repsCount (feedAll [Fin 80; Fin 170] fresh) = 1%N /\
  repsCount (feedAll [Fin 80; Fin 170; Fin 80] fresh) = 1%N.
Proof. split; ticks; reflexivity. Qed.

(** A frame of a running session is a tick of the tracker on the rounded
    elbow angle of the joints of that frame. *)
Lemma detectPose_is_tick (now : number) (s : State) :
  isRunning s = true ->
  let angle :=
    Math_round (elbowAngle (joints (simulateJointDetection now s))) in
  lastPoseState (detectPose now s) = lastPoseState (feed angle s) /\
  repsCount (detectPose now s) = repsCount (feed angle s).
Proof.
  intros Hrun angle. unfold detectPose. rewrite Hrun. cbn [negb].
  unfold feed.
  rewrite !checkExerciseForm_lastPoseState, !checkExerciseForm_repsCount.
  split; reflexivity.
Qed.

(** ** Degenerate angle *)

(** C4, as stated, fails: a tick on [NaN] after a Down tick replaces the
    recorded Down by [null]. *)
Lemma NaN_tick_overwrites_lastPoseState :
  lastPoseState (feed (Fin 80) fresh) = Some down /\
  lastPoseState (feed NaN (feed (Fin 80) fresh)) = None /\
  repsCount (feedAll [Fin 80; NaN; Fin 170] fresh) = 0%N.
Proof. repeat split; ticks; reflexivity. Qed.

(** C4 (amended): on the angle [NaN] both comparisons are false, so the
    tick computes the in-between phase ([null]), which is neither Down nor
    Up, with the feedback of that phase; [repsCount] is unchanged and
    [lastPoseState] is set to [null]. *)
Theorem NaN_tick (s : State) :
  let s' := feed NaN s in
  lastPoseState s' = None /\
  lastPoseState s' <> Some down /\
  lastPoseState s' <> Some up /\
  repsCount s' = repsCount s /\
  postureFeedbackText s' = "Continue your movement"%string /\
  postureFeedbackClass s' = "feedback-text"%string.
Proof.
  cbv zeta. rewrite feed_lastPoseState, feed_repsCount, poseStateOf_NaN.
  cbn. rewrite andb_false_r.
  repeat split; try discriminate;
    unfold feed, checkExerciseForm, gtb, ltb; cbn;
    rewrite andb_false_r; reflexivity.
Qed.

(** ** Monotonic counter *)

(** C8: no event of the program decreases [repsCount]: whatever the trace
    of start, metadata, stop and frame events, and whatever the angles fed
    to the tracker, the count at the end is at least the count at the
    beginning. *)
Theorem repsCount_never_decreases (trace : list Event) (angles : list number)
    (s : State) :
  (repsCount s <= repsCount (run trace s))%N /\
  (repsCount s <= repsCount (feedAll angles s))%N.
Proof.
  split.
  - revert s. induction trace as [| e rest IH]; intros s; simpl.
    + lia.
    + pose proof (step_repsCount e s). pose proof (IH (step e s)). lia.
  - revert s. induction angles as [| a rest IH]; intros s; simpl.
    + lia.
    + pose proof (feed_repsCount_le a s). pose proof (IH (feed a s)). lia.
Qed.

(** ** Session start *)

Lemma control_event_keeps_tracker (e : Event) (s : State) :
  is_frame e = false ->
  repsCount (step e s) = repsCount s /\
  lastPoseState (step e s) = lastPoseState s.
Proof.
  destruct e as [granted | w h now | | now]; simpl; intros H;
    try discriminate; try (split; reflexivity).
  destruct granted; split; reflexivity.
Qed.

Lemma control_trace_keeps_tracker (trace : list Event) (s : State) :
  forallb (fun e => negb (is_frame e)) trace = true ->
  repsCount (run trace s) = repsCount s /\
  lastPoseState (run trace s) = lastPoseState s.
Proof.
  revert s. induction trace as [| e rest IH]; intros s H; simpl in *.
  - split; reflexivity.
  - apply andb_true_iff in H as [He Hrest].
    apply negb_true_iff in He.
    destruct (control_event_keeps_tracker e s He) as [Hc Hl].
    destruct (IH (step e s) Hrest) as [Hc' Hl'].
    split; congruence.
Qed.

(** C3, as stated, fails: starting a session after one counted rep leaves
    the count at 1 and the recorded phase at Up, and the next Down-then-Up
    brings the count to 2. *)
Lemma start_keeps_count :
  let s := feedAll [Fin 80; Fin 170] fresh in
  let s' := run [StartClicked true; MetadataLoaded (Fin 640) (Fin 480) 0] s in
  repsCount s = 1%N /\
  isRunning s' = true /\
  repsCount s' = 1%N /\
  lastPoseState s' = Some up /\
  repsCount (feedAll [Fin 80; Fin 170] s') = 2%N.
Proof. cbv zeta. repeat split; ticks; reflexivity. Qed.

(** C3 (amended): [lastPoseState = null] and [repsCount = 0] are
    established once, when the script is loaded.  Starting a session
    (the click on start, whether the webcam is granted or not, followed by
    the metadata handler), like any sequence of start, metadata and stop
    events, leaves both variables as they were, so the next Down-then-Up
    pair of ticks counts one more than before; from the loaded state it
    counts 1. *)
Theorem start_does_not_reset (trace : list Event) (s : State)
    (w h : number) (cls : string) (d u : number) :
  forallb (fun e => negb (is_frame e)) trace = true ->
  poseStateOf d = Some down ->
  poseStateOf u = Some up ->
  repsCount (loaded w h cls) = 0%N /\
  lastPoseState (loaded w h cls) = None /\
  repsCount (feedAll [d; u] (loaded w h cls)) = 1%N /\
  repsCount (run trace s) = repsCount s /\
  lastPoseState (run trace s) = lastPoseState s /\
  repsCount (feedAll [d; u] (run trace s)) = (repsCount s + 1)%N.
Proof.
  intros Htrace Hd Hu.
  destruct (control_trace_keeps_tracker trace s Htrace) as [Hc Hl].
  assert (Hpair : forall s0, repsCount (feedAll [d; u] s0) = (repsCount s0 + 1)%N).
  { intros s0. unfold feedAll.
    rewrite !feed_repsCount, !feed_lastPoseState, Hd, Hu. cbn.
    rewrite andb_false_r. reflexivity. }
  repeat split; try assumption; try reflexivity.
  - rewrite Hpair. reflexivity.
  - rewrite Hpair, Hc. reflexivity.
Qed.

Lemma start_does_not_reset_witness :
  let s := feedAll [Fin 80; Fin 170] fresh in
  let s' := run [StartClicked true; MetadataLoaded (Fin 640) (Fin 480) 0] s in
  repsCount s' = repsCount s /\
  repsCount (feedAll [Fin 80; Fin 170] s') = (repsCount s + 1)%N.
Proof.
  cbv zeta.
  pose proof (start_does_not_reset
                [StartClicked true; MetadataLoaded (Fin 640) (Fin 480) 0]
                (feedAll [Fin 80; Fin 170] fresh)
                (Fin 640) (Fin 480) "feedback-text" (Fin 80) (Fin 170)
                eq_refl poseStateOf_80 poseStateOf_170)
    as (_ & _ & _ & Hc & _ & Hn).
  split; assumption.
Defined.

(** ** The angle computation on finite coordinates *)

Lemma elbowAngle_angleAt (j : Joints) :
  elbowAngle j = angleAt (shoulders j) (elbows j) (wrists j).
Proof. reflexivity. Qed.

Lemma sq_sum_nonneg (u v : R) : 0 <= u ^ 2 + v ^ 2.
Proof. nra. Qed.

Lemma side_Fin (px py qx qy : R) :
  Math_sqrt (add (Math_pow (sub (Fin px) (Fin qx)) 2)
                 (Math_pow (sub (Fin py) (Fin qy)) 2))
  = Fin (dist px py qx qy).
Proof.
  cbn. rewrite Rltb_false; [reflexivity |].
  pose proof (sq_sum_nonneg (px - qx) (py - qy)). lra.
Qed.

Lemma dist_sym (px py qx qy : R) : dist px py qx qy = dist qx qy px py.
Proof. unfold dist. f_equal. ring. Qed.

Lemma dist_sqr (px py qx qy : R) :
  dist px py qx qy * dist px py qx qy = (px - qx) ^ 2 + (py - qy) ^ 2.
Proof. unfold dist. apply sqrt_sqrt, sq_sum_nonneg. Qed.

Lemma dist_nonneg (px py qx qy : R) : 0 <= dist px py qx qy.
Proof. unfold dist. apply sqrt_pos. Qed.

Lemma dist_self (px py : R) : dist px py px py = 0.
Proof.
  unfold dist. replace ((px - px) ^ 2 + (py - py) ^ 2) with 0 by ring.
  apply sqrt_0.
Qed.

Lemma dist_pos (px py qx qy : R) :
  (px, py) <> (qx, qy) -> 0 < dist px py qx qy.
Proof.
  intros Hne. unfold dist. apply sqrt_lt_R0.
  destruct (Req_dec_T px qx) as [Hx | Hx].
  - destruct (Req_dec_T py qy) as [Hy | Hy].
    + subst. contradiction Hne. reflexivity.
    + assert (0 < (py - qy) ^ 2) by (rewrite <- Rsqr_pow2; apply Rlt_0_sqr; lra).
      pose proof (pow2_ge_0 (px - qx)). lra.
  - assert (0 < (px - qx) ^ 2) by (rewrite <- Rsqr_pow2; apply Rlt_0_sqr; lra).
    pose proof (pow2_ge_0 (py - qy)). lra.
Qed.

Lemma degrees_per_radian : div (Fin 180) Math_PI = Fin (180 / PI).
Proof.
  unfold Math_PI. cbn. rewrite Reqb_false; [reflexivity | apply PI_neq0].
Qed.

(** [calculateJointAngle] on finite coordinates, in terms of the three
    side lengths. *)
Lemma calculateJointAngle_Fin (x1 y1 x2 y2 x3 y3 : R) :
  calculateJointAngle (Fin x1) (Fin y1) (Fin x2) (Fin y2) (Fin x3) (Fin y3)
  = let a := dist x2 y2 x3 y3 in
    let b := dist x1 y1 x3 y3 in
    let c := dist x1 y1 x2 y2 in
    mul (Math_acos (div (Fin (a * a + c * c - b * b)) (Fin (2 * a * c))))
        (Fin (180 / PI)).
Proof.
  unfold calculateJointAngle.
  rewrite !side_Fin, degrees_per_radian. reflexivity.
Qed.

(** The argument of [Math.acos] lies in [-1, 1] as soon as the vertex
    differs from both end points (Cauchy-Schwarz). *)
Lemma cosine_in_range (x1 y1 x2 y2 x3 y3 : R) :
  (x1, y1) <> (x2, y2) ->
  (x3, y3) <> (x2, y2) ->
  let a := dist x2 y2 x3 y3 in
  let b := dist x1 y1 x3 y3 in
  let c := dist x1 y1 x2 y2 in
  0 < 2 * a * c /\ -1 <= (a * a + c * c - b * b) / (2 * a * c) <= 1.
Proof.
  intros H1 H3 a b c.
  assert (Ha : 0 < a).
  { unfold a. rewrite dist_sym. apply dist_pos. assumption. }
  assert (Hc : 0 < c) by (apply dist_pos; assumption).
  assert (Haa := dist_sqr x2 y2 x3 y3 : a * a = _).
  assert (Hbb := dist_sqr x1 y1 x3 y3 : b * b = _).
  assert (Hcc := dist_sqr x1 y1 x2 y2 : c * c = _).
  set (dot := (x1 - x2) * (x3 - x2) + (y1 - y2) * (y3 - y2)).
  set (cross := (x1 - x2) * (y3 - y2) - (y1 - y2) * (x3 - x2)).
  assert (Hn : a * a + c * c - b * b = 2 * dot).
  { rewrite Haa, Hbb, Hcc. unfold dot. ring. }
  assert (Hcs : dot * dot <= (a * c) * (a * c)).
  { replace ((a * c) * (a * c)) with ((a * a) * (c * c)) by ring.
    rewrite Haa, Hcc.
    assert (Hid : ((x2 - x3) ^ 2 + (y2 - y3) ^ 2) *
                  ((x1 - x2) ^ 2 + (y1 - y2) ^ 2) - dot * dot
                  = cross * cross) by (unfold dot, cross; ring).
    pose proof (Rle_0_sqr cross) as Hsq. unfold Rsqr in Hsq. lra. }
  assert (Hac : 0 < a * c) by (apply Rmult_lt_0_compat; assumption).
  assert (Hdot : - (a * c) <= dot <= a * c) by nra.
  assert (Hd : 0 < 2 * a * c) by lra.
  split; [assumption |].
  rewrite Hn.
  assert (Hq : 2 * dot / (2 * a * c) * (2 * a * c) = 2 * dot) by (field; lra).
  split; apply Rmult_le_reg_r with (2 * a * c); try assumption;
    rewrite Hq; lra.
Qed.

(** Away from the degenerate inputs the result is a finite number of
    degrees between 0 and 180. *)
Lemma calculateJointAngle_nondegenerate (x1 y1 x2 y2 x3 y3 : R) :
  (x1, y1) <> (x2, y2) ->
  (x3, y3) <> (x2, y2) ->
  let a := dist x2 y2 x3 y3 in
  let b := dist x1 y1 x3 y3 in
  let c := dist x1 y1 x2 y2 in
  let deg := acos ((a * a + c * c - b * b) / (2 * a * c)) * (180 / PI) in
  calculateJointAngle (Fin x1) (Fin y1) (Fin x2) (Fin y2) (Fin x3) (Fin y3)
  = Fin deg /\ 0 <= deg <= 180.
Proof.
  intros H1 H3 a b c deg.
  destruct (cosine_in_range x1 y1 x2 y2 x3 y3 H1 H3) as [Hd [Hlo Hhi]].
  fold a b c in Hd, Hlo, Hhi.
  split.
  - rewrite calculateJointAngle_Fin. cbv zeta. fold a b c.
    unfold div. rewrite Reqb_false by lra.
    unfold Math_acos. rewrite !Rltb_false by lra. reflexivity.
  - unfold deg.
    pose proof (acos_bound ((a * a + c * c - b * b) / (2 * a * c))) as [B0 B1].
    pose proof PI_RGT_0 as Hpi.
    assert (Hk : 0 < 180 / PI) by (apply Rdiv_lt_0_compat; lra).
    split.
    + apply Rmult_le_pos; lra.
    + replace 180 with (PI * (180 / PI)) at 2 by (field; lra).
      apply Rmult_le_compat_r; lra.
Qed.

(** ** Symmetry on all numbers *)





(** ** Angle symmetry *)



(** ** Degenerate inputs *)

Lemma sub_self_sq (v : number) :
  Math_pow (sub v v) 2 = NaN \/ Math_pow (sub v v) 2 = Fin 0.
Proof.
  destruct v as [| s | r]; cbn.
  - left; reflexivity.
  - rewrite Bool.eqb_reflx. left; reflexivity.
  - right. f_equal. ring.
Qed.

(** A side between a point and itself has length 0, or is [NaN] when a
    coordinate is not finite. *)
Lemma zero_side (vx vy : number) :
  let c := Math_sqrt (add (Math_pow (sub vx vx) 2) (Math_pow (sub vy vy) 2)) in
  c = NaN \/ c = Fin 0.
Proof.
  cbv zeta.
  destruct (sub_self_sq vx) as [-> | ->], (sub_self_sq vy) as [-> | ->]; cbn;
    try (left; reflexivity).
  right. rewrite Rltb_false by lra. f_equal.
  rewrite Rplus_0_l. apply sqrt_0.
Qed.

(** With the side at the vertex of length 0 and the two other sides equal,
    the quotient is 0/0. *)
Lemma acos_zero_over_zero_c (z c : number) :
  c = NaN \/ c = Fin 0 ->
  Math_acos (div (sub (add (mul z z) (mul c c)) (mul z z))
                 (mul (mul (Fin 2) z) c)) = NaN.
Proof.
  intros [-> | ->]; destruct z as [| s | r]; cbn; try reflexivity.
  - rewrite Bool.eqb_reflx. reflexivity.
  - rewrite !Reqb_true by ring. reflexivity.
Qed.

Lemma acos_zero_over_zero_a (z a : number) :
  a = NaN \/ a = Fin 0 ->
  Math_acos (div (sub (add (mul a a) (mul z z)) (mul z z))
                 (mul (mul (Fin 2) a) z)) = NaN.
Proof.
  intros [-> | ->]; destruct z as [| s | r]; cbn; try reflexivity.
  - rewrite Bool.eqb_reflx. reflexivity.
  - rewrite !Reqb_true by ring. reflexivity.
Qed.

(** The vertex on the first end point, and the vertex on the second. *)
Lemma vertex_on_endpoint (p q : Point) :
  angleAt p p q = NaN /\ angleAt q p p = NaN.
Proof.
  unfold angleAt, calculateJointAngle. split.
  - rewrite acos_zero_over_zero_c by apply zero_side. reflexivity.
  - rewrite acos_zero_over_zero_a by apply zero_side. reflexivity.
Qed.

(** Both end points at (1,0) and the vertex at (0,0): the two sides at
    the vertex have length 1, the third has length 0, and the quotient
    is 1. *)
Lemma unit_endpoints :
  calculateJointAngle (Fin 1) (Fin 0) (Fin 0) (Fin 0) (Fin 1) (Fin 0) = Fin 0.
Proof.
  rewrite calculateJointAngle_Fin. cbv zeta.
  rewrite dist_self, (dist_sym 0 0 1 0).
  assert (H1 : dist 1 0 0 0 = 1).
  { unfold dist. replace ((1 - 0) ^ 2 + (0 - 0) ^ 2) with 1 by ring.
    apply sqrt_1. }
  rewrite H1. unfold div. rewrite Reqb_false by lra.
  replace ((1 * 1 + 1 * 1 - 0 * 0) / (2 * 1 * 1)) with 1 by field.
  unfold Math_acos. rewrite !Rltb_false by lra. cbn.
  rewrite acos_1. f_equal. ring.
Qed.

(** C6, as stated, fails: with both end points at (1,0) and the vertex at
    (0,0) the computation returns the number 0. *)
Lemma angleAt_p_q_p_is_zero :
  angleAt (pt 1 0) (pt 0 0) (pt 1 0) = Fin 0.
Proof. exact unit_endpoints. Qed.

(** C6 (amended): when the vertex coincides with an end point, as in
    [angleAt p p q] and [angleAt q p p], the computation yields [NaN]
    (from the quotient 0/0) and no numeric angle, for all points [p] and
    [q].  [angleAt p q p] is not signalled in general: with [p] at (1,0)
    and [q] at (0,0) it returns the number 0. *)
Theorem degenerate_angles (p q : Point) :
  angleAt p p q = NaN /\
  angleAt q p p = NaN /\
  (forall deg : R, angleAt p p q <> Fin deg) /\
  (forall deg : R, angleAt q p p <> Fin deg) /\
  angleAt (pt 1 0) (pt 0 0) (pt 1 0) = Fin 0.
Proof.
  destruct (vertex_on_endpoint p q) as [H1 H2].
  repeat split; try assumption.
  - rewrite H1. discriminate.
  - rewrite H2. discriminate.
  - exact unit_endpoints.
Qed.

(** ** Rounding *)

Lemma Math_round_Fin (r : R) (z : Z) :
  IZR z - / 2 <= r < IZR z + / 2 -> Math_round (Fin r) = Fin (IZR z).
Proof.
  intros H. unfold Math_round. do 2 f_equal. apply Zfloor_eq. lra.
Qed.

(** [Math.round] gives an integer at distance at most one half. *)
Lemma Math_round_nearest (r : R) :
  exists z : Z,
    Math_round (Fin r) = Fin (IZR z) /\ - / 2 < IZR z - r <= / 2.
Proof.
  exists (Zfloor (r + / 2)). split; [reflexivity |].
  pose proof (Zfloor_bound (r + / 2)). lra.
Qed.

Lemma Math_round_89_6 : Math_round (Fin (896 / 10)) = Fin 90.
Proof. apply (Math_round_Fin _ 90). lra. Qed.

Lemma Math_round_90_4 : Math_round (Fin (904 / 10)) = Fin 90.
Proof. apply (Math_round_Fin _ 90). lra. Qed.

Lemma poseStateOf_90 : poseStateOf (Fin 90) = None.
Proof. pose_of. Qed.

Lemma calculateAngle_currentAngle (s : State) :
  currentAngle (calculateAngle s) = Math_round (elbowAngle (joints s)).
Proof. reflexivity. Qed.

(** C10: [calculateAngle] stores the rounded angle, and
    [checkExerciseForm] classifies what is stored.  So two angles with the
    same rounding give the same state after the tick, and two sets of
    joints whose elbow angles have the same rounding leave the same phase,
    count, angle and feedback.  For example 89.6 and 90.4 both round to 90
    and are both classified in between, although 89.6 is below 90. *)
Theorem classification_uses_rounded_angle (s : State) (a1 a2 : number)
    (j1 j2 : Joints) :
  Math_round a1 = Math_round a2 ->
  Math_round (elbowAngle j1) = Math_round (elbowAngle j2) ->
  currentAngle (calculateAngle s) = Math_round (elbowAngle (joints s)) /\
  (forall r : R, exists z : Z,
     Math_round (Fin r) = Fin (IZR z) /\ - / 2 < IZR z - r <= / 2) /\
  lastPoseState (checkExerciseForm (calculateAngle s))
    = poseStateOf (Math_round (elbowAngle (joints s))) /\
  checkExerciseForm (storeAngle a1 s) = checkExerciseForm (storeAngle a2 s) /\
  tracked (checkExerciseForm (calculateAngle (set_joints j1 s)))
    = tracked (checkExerciseForm (calculateAngle (set_joints j2 s))) /\
  Math_round (Fin (896 / 10)) = Fin 90 /\
  Math_round (Fin (904 / 10)) = Fin 90 /\
  lastPoseState (checkExerciseForm (storeAngle (Fin (896 / 10)) s)) = None /\
  lastPoseState (checkExerciseForm (storeAngle (Fin (904 / 10)) s)) = None /\
  poseStateOf (Fin (896 / 10)) = Some down.
Proof.
  intros Ha Hj.
  split; [reflexivity |].
  split; [apply Math_round_nearest |].
  split; [rewrite checkExerciseForm_lastPoseState; reflexivity |].
  split; [unfold storeAngle; rewrite Ha; reflexivity |].
  split.
  { unfold tracked.
    rewrite !checkExerciseForm_lastPoseState, !checkExerciseForm_repsCount.
    unfold calculateAngle, storeAngle, checkExerciseForm. cbn.
    rewrite Hj.
    destruct (ltb (Math_round (elbowAngle j2)) (Fin 90)); cbn.
    - rewrite andb_false_r. reflexivity.
    - destruct (gtb (Math_round (elbowAngle j2)) (Fin 160)); cbn.
      + destruct (is_pose (lastPoseState s) down); reflexivity.
      + rewrite andb_false_r. reflexivity. }
  split; [apply Math_round_89_6 |].
  split; [apply Math_round_90_4 |].
  rewrite !checkExerciseForm_lastPoseState. unfold storeAngle. cbn [currentAngle set_angleLabel set_currentAngle].
  rewrite Math_round_89_6, Math_round_90_4, poseStateOf_90.
  repeat split. pose_of.
Qed.

Lemma classification_uses_rounded_angle_witness :
  checkExerciseForm (storeAngle (Fin (896 / 10)) fresh)
  = checkExerciseForm (storeAngle (Fin (904 / 10)) fresh).
Proof.
  refine (proj1 (proj2 (proj2 (proj2
    (classification_uses_rounded_angle fresh (Fin (896 / 10)) (Fin (904 / 10))
       (joints fresh) (joints fresh) _ eq_refl))))).
  rewrite Math_round_89_6, Math_round_90_4. reflexivity.
Defined.

(** ** Reps as Down-to-Up edges *)

Lemma feedAll_repsCount (angles : list number) (s : State) :
  repsCount (feedAll angles s)
  = (repsCount s
     + downUpEdges (lastPoseState s) (map poseStateOf angles))%N.
Proof.
  revert s. induction angles as [| a rest IH]; intros s; simpl.
  - lia.
  - rewrite IH, feed_repsCount, feed_lastPoseState.
    destruct (is_pose (lastPoseState s) down && is_pose (poseStateOf a) up);
      lia.
Qed.

(** X1: after any sequence of ticks, [repsCount] has grown by the number
    of places where a tick classified Down is directly followed by a tick
    classified Up, the phase recorded before the first tick included. *)
Theorem repsCount_counts_edges (angles : list number) (s : State) :
  repsCount (feedAll angles s)
  = (repsCount s
     + downUpEdges (lastPoseState s) (map poseStateOf angles))%N.
Proof.
  revert s. induction angles as [| a rest IH]; intros s.
  - cbn [feedAll map downUpEdges]. lia.
  - cbn [feedAll map downUpEdges].
    rewrite IH, feed_lastPoseState, feed_repsCount.
    destruct (lastPoseState s) as [[|]|], (poseStateOf a) as [[|]|];
      cbn [is_pose PoseState_eqb andb]; lia.
Qed.

Lemma downUpEdges_bound (prev : option PoseState)
    (phases : list (option PoseState)) :
  (2 * downUpEdges prev phases
   <= N.of_nat (List.length phases) + (if is_pose prev down then 1 else 0))%N.
Proof.
  revert prev. induction phases as [| p rest IH]; intros prev.
  - simpl. destruct (is_pose prev down); lia.
  - cbn [downUpEdges List.length]. rewrite Nat2N.inj_succ.
    specialize (IH p).
    destruct prev as [[|]|], p as [[|]|];
      cbn [is_pose PoseState_eqb andb] in *; lia.
Qed.

(** X2: [n] ticks count at most [n/2] reps, rounded up when the phase
    recorded before them is Down and rounded down otherwise: two
    consecutive ticks never both count. *)
Theorem reps_at_most_half_the_ticks (angles : list number) (s : State) :
  (2 * (repsCount (feedAll angles s) - repsCount s)
   <= N.of_nat (List.length angles)
      + (if is_pose (lastPoseState s) down then 1 else 0))%N /\
  (forall a b : number,
     repsCount (feedAll [a; b] s) = (repsCount s + 2)%N -> False).
Proof.
  split.
  - rewrite feedAll_repsCount.
    pose proof (downUpEdges_bound (lastPoseState s) (map poseStateOf angles))
      as H.
    rewrite length_map in H. lia.
  - intros a b. rewrite feedAll_repsCount. cbn.
    destruct (lastPoseState s) as [[|]|], (poseStateOf a) as [[|]|],
      (poseStateOf b) as [[|]|]; cbn; lia.
Qed.

(** ** Displays *)

Lemma detectPose_displays (now : number) (s : State) :
  displays_agree s -> displays_agree (detectPose now s).
Proof.
  intros [Hr Ha]. unfold detectPose.
  destruct (isRunning s); cbn [negb]; [| split; assumption].
  unfold displays_agree, checkExerciseForm, calculateAngle, storeAngle.
  cbn.
  destruct (ltb _ (Fin 90)); cbn.
  - rewrite andb_false_r. split; [assumption | reflexivity].
  - destruct (gtb _ (Fin 160)); cbn.
    + destruct (is_pose (lastPoseState s) down); cbn;
        split; try assumption; reflexivity.
    + rewrite andb_false_r. split; [assumption | reflexivity].
Qed.

Lemma step_displays (e : Event) (s : State) :
  displays_agree s -> displays_agree (step e s).
Proof.
  destruct e as [granted | w h now | | now]; cbn [step].
  - destruct granted; intros H; exact H.
  - intros H; exact H.
  - intros H; exact H.
  - apply detectPose_displays.
Qed.

(** X3: the number shown as rep count is the value of [repsCount], and the
    angle shown is [currentAngle]: this holds when the page is loaded and
    is kept by every start, metadata, stop and frame event. *)
Theorem displays_follow_variables (trace : list Event) (s : State)
    (w h : number) (cls : string) :
  displays_agree s ->
  displays_agree (run trace s) /\
  displays_agree (run trace (loaded w h cls)).
Proof.
  assert (Hrun : forall t s0, displays_agree s0 -> displays_agree (run t s0)).
  { induction t as [| e rest IH]; intros s0 H0; simpl.
    - exact H0.
    - apply IH, step_displays, H0. }
  intros H. split; [apply Hrun, H |].
  apply Hrun. split; reflexivity.
Qed.

Lemma displays_follow_variables_witness :
  displays_agree (run [MetadataLoaded (Fin 640) (Fin 480) 0; Frame (Fin 0)]
                    fresh).
Proof.
  refine (proj1 (displays_follow_variables
                   [MetadataLoaded (Fin 640) (Fin 480) 0; Frame (Fin 0)]
                   fresh (Fin 640) (Fin 480) "feedback-text" _)).
  split; reflexivity.
Defined.

(** ** Frames outside a session *)

Lemma frames_ignored (times : list number) (s : State) :
  isRunning s = false -> run (map Frame times) s = s.
Proof.
  intros H. induction times as [| now rest IH]; simpl.
  - reflexivity.
  - unfold detectPose. rewrite H. cbn [negb]. exact IH.
Qed.

(** X4: while [isRunning] is false, frames change nothing.  So frames are
    ignored before the first session, after a refused webcam and after
    stop, until the next metadata event. *)
Theorem frames_ignored_unless_running (times : list number) (s : State) :
  isRunning s = false ->
  run (map Frame times) s = s /\
  run (StartClicked false :: map Frame times) s = startExercise false s /\
  run (StartClicked true :: map Frame times) s = startExercise true s /\
  (forall s' : State,
     run (StopClicked :: map Frame times) s' = stopExercise s').
Proof.
  intros H. split; [apply frames_ignored, H |].
  split; [cbn [run step]; apply frames_ignored; exact H |].
  split; [cbn [run step]; apply frames_ignored; exact H |].
  intros s'. cbn [run step]. apply frames_ignored. reflexivity.
Qed.

Lemma frames_ignored_unless_running_witness :
  run (map Frame [Fin 0; Fin 16; Fin 33]) fresh = fresh.
Proof.
  exact (proj1 (frames_ignored_unless_running [Fin 0; Fin 16; Fin 33] fresh
                  eq_refl)).
Defined.

(** ** Range of the computed angle *)

(** A side is finite only between two finite points; otherwise it is
    [NaN] or plus infinity. *)
Lemma side_class (px py qx qy : number) :
  (exists a b c d : R,
     px = Fin a /\ py = Fin b /\ qx = Fin c /\ qy = Fin d) \/
  Math_sqrt (add (Math_pow (sub px qx) 2) (Math_pow (sub py qy) 2)) = NaN \/
  Math_sqrt (add (Math_pow (sub px qx) 2) (Math_pow (sub py qy) 2))
  = Inf false.
Proof.
  destruct px as [| [] | a], py as [| [] | b], qx as [| [] | c],
    qy as [| [] | d]; cbn;
    try (right; left; reflexivity);
    try (right; right; reflexivity).
  left. exists a, b, c, d. repeat split.
Qed.

(** With a side at the vertex that is not finite, the quotient is [NaN]
    or the quotient of two infinities. *)
Lemma acos_nonfinite_side (a b c : number) :
  a = NaN \/ a = Inf false \/ c = NaN \/ c = Inf false ->
  Math_acos (div (sub (add (mul a a) (mul c c)) (mul b b))
                 (mul (mul (Fin 2) a) c)) = NaN.
Proof.
  intros H.
  destruct a as [| [] | ra], b as [| [] | rb], c as [| [] | rc];
    try (exfalso; destruct H as [H | [H | [H | H]]]; discriminate);
    cbn; cmp; cbn; try reflexivity;
    match goal with
    | |- context [Reqb ?r 0] => destruct (Reqb r 0); cbn; reflexivity
    end.
Qed.

Lemma pair_eq_dec (a b c d : R) : {(a, b) = (c, d)} + {(a, b) <> (c, d)}.
Proof.
  destruct (Req_dec_T a c) as [-> | Hac].
  - destruct (Req_dec_T b d) as [-> | Hbd].
    + left. reflexivity.
    + right. intros E. injection E. exact Hbd.
  - right. intros E. injection E. intros _. exact Hac.
Qed.

(** On finite coordinates the result is [NaN] exactly when the vertex is
    one of the end points. *)
Lemma calculateJointAngle_finite (x1 y1 x2 y2 x3 y3 : R) :
  ((x1, y1) = (x2, y2) \/ (x3, y3) = (x2, y2)) /\
    calculateJointAngle (Fin x1) (Fin y1) (Fin x2) (Fin y2) (Fin x3) (Fin y3)
    = NaN
  \/
  ((x1, y1) <> (x2, y2) /\ (x3, y3) <> (x2, y2)) /\
    exists deg : R,
      0 <= deg <= 180 /\
      calculateJointAngle (Fin x1) (Fin y1) (Fin x2) (Fin y2) (Fin x3) (Fin y3)
      = Fin deg.
Proof.
  destruct (pair_eq_dec x1 y1 x2 y2) as [E1 | N1].
  - left. split; [left; exact E1 |].
    injection E1 as -> ->.
    exact (proj1 (vertex_on_endpoint (pt x2 y2) (pt x3 y3))).
  - destruct (pair_eq_dec x3 y3 x2 y2) as [E3 | N3].
    + left. split; [right; exact E3 |].
      injection E3 as -> ->.
      exact (proj2 (vertex_on_endpoint (pt x2 y2) (pt x1 y1))).
    + right. split; [split; assumption |].
      destruct (calculateJointAngle_nondegenerate x1 y1 x2 y2 x3 y3 N1 N3)
        as [E B].
      eexists. split; [exact B | exact E].
Qed.

(** For all arguments the result is [NaN] or a finite number of degrees
    between 0 and 180. *)
Lemma calculateJointAngle_NaN_or_degrees (x1 y1 x2 y2 x3 y3 : number) :
  calculateJointAngle x1 y1 x2 y2 x3 y3 = NaN \/
  exists deg : R,
    0 <= deg <= 180 /\ calculateJointAngle x1 y1 x2 y2 x3 y3 = Fin deg.
Proof.
  destruct (side_class x2 y2 x3 y3) as [Fa | Na].
  - destruct (side_class x1 y1 x2 y2) as [Fc | Nc].
    + destruct Fa as (p2 & q2 & p3 & q3 & -> & -> & -> & ->).
      destruct Fc as (p1 & q1 & p2' & q2' & -> & -> & E2 & E2').
      destruct (calculateJointAngle_finite p1 q1 p2 q2 p3 q3)
        as [[_ E] | [_ (deg & B & E)]].
      * left. exact E.
      * right. exists deg. split; assumption.
    + left. unfold calculateJointAngle.
      rewrite acos_nonfinite_side; [reflexivity |].
      right. right. exact Nc.
  - left. unfold calculateJointAngle.
    rewrite acos_nonfinite_side; [reflexivity |].
    destruct Na as [Na | Na]; [left | right; left]; exact Na.
Qed.

(** X5: for all six arguments, finite or not, [calculateJointAngle]
    returns either [NaN] or a finite number of degrees between 0 and 180:
    never an infinity, never a negative number, never more than 180.  With
    the vertex on one of the two end points it returns [NaN]. *)
Theorem calculateJointAngle_range (x1 y1 x2 y2 x3 y3 : number) :
  (calculateJointAngle x1 y1 x2 y2 x3 y3 = NaN \/
   exists deg : R,
     0 <= deg <= 180 /\ calculateJointAngle x1 y1 x2 y2 x3 y3 = Fin deg) /\
  (forall neg : bool, calculateJointAngle x1 y1 x2 y2 x3 y3 <> Inf neg) /\
  calculateJointAngle x2 y2 x2 y2 x3 y3 = NaN /\
  calculateJointAngle x1 y1 x2 y2 x2 y2 = NaN.
Proof.
  pose proof (calculateJointAngle_NaN_or_degrees x1 y1 x2 y2 x3 y3) as H.
  split; [exact H |]. split.
  - intros neg. destruct H as [E | (deg & _ & E)]; rewrite E; discriminate.
  - split.
    + exact (proj1 (vertex_on_endpoint (mkPoint x2 y2) (mkPoint x3 y3))).
    + exact (proj2 (vertex_on_endpoint (mkPoint x2 y2) (mkPoint x1 y1))).
Qed.

Lemma Math_round_range (deg : R) (zlo zhi : Z) :
  IZR zlo <= deg + / 2 -> deg + / 2 < IZR zhi + 1 ->
  exists z : Z, (zlo <= z <= zhi)%Z /\ Math_round (Fin deg) = Fin (IZR z).
Proof.
  intros Hlo Hhi. exists (Zfloor (deg + / 2)).
  split; [| reflexivity].
  pose proof (Zfloor_bound (deg + / 2)) as [B1 B2].
  split.
  - apply Zfloor_lub. exact Hlo.
  - assert (H : (Zfloor (deg + / 2) < zhi + 1)%Z).
    { apply lt_IZR. rewrite plus_IZR. lra. }
    lia.
Qed.

Lemma calculateAngle_whole_degrees (s : State) :
  whole_degrees (currentAngle (calculateAngle s)).
Proof.
  rewrite calculateAngle_currentAngle. unfold elbowAngle.
  destruct (calculateJointAngle_NaN_or_degrees
              (x (shoulders (joints s))) (y (shoulders (joints s)))
              (x (elbows (joints s))) (y (elbows (joints s)))
              (x (wrists (joints s))) (y (wrists (joints s))))
    as [E | (deg & B & E)]; rewrite E.
  - left. reflexivity.
  - right. apply (Math_round_range deg 0 180); cbn; lra.
Qed.

Lemma step_whole_degrees (e : Event) (s : State) :
  whole_degrees (currentAngle s) -> whole_degrees (currentAngle (step e s)).
Proof.
  destruct e as [granted | w h now | | now]; cbn [step].
  - destruct granted; intros H; exact H.
  - intros H; exact H.
  - intros H; exact H.
  - intros H. unfold detectPose. destruct (isRunning s); cbn [negb].
    + set (s1 := simulateJointDetection now s).
      pose proof (calculateAngle_whole_degrees s1) as Hc.
      replace (currentAngle (checkExerciseForm (calculateAngle s1)))
        with (currentAngle (calculateAngle s1)); [exact Hc |].
      unfold checkExerciseForm.
      destruct (ltb _ (Fin 90)); cbn.
      * rewrite andb_false_r. reflexivity.
      * destruct (gtb _ (Fin 160)); cbn.
        -- destruct (is_pose _ down); reflexivity.
        -- rewrite andb_false_r. reflexivity.
    + exact H.
Qed.

(** X6: whatever the joints, [calculateAngle] leaves in [currentAngle]
    either [NaN] or a whole number of degrees from 0 to 180; the same holds
    for the angle stored after any trace of events from the loaded
    page. *)
Theorem currentAngle_whole_degrees (trace : list Event) (s : State)
    (w h : number) (cls : string) :
  whole_degrees (currentAngle (calculateAngle s)) /\
  whole_degrees (currentAngle (run trace (loaded w h cls))).
Proof.
  split; [apply calculateAngle_whole_degrees |].
  assert (Hrun : forall t s0, whole_degrees (currentAngle s0) ->
                              whole_degrees (currentAngle (run t s0))).
  { induction t as [| e rest IH]; intros s0 H0; simpl.
    - exact H0.
    - apply IH, step_whole_degrees, H0. }
  apply Hrun. right. exists 0%Z. split; [lia | reflexivity].
Qed.

(** ** The simulated joints *)

(** The joints written by [simulateJointDetection] for a finite canvas
    and a finite time. *)
Lemma simulated_joints_finite (w h t : R) (s : State) :
  canvasWidth s = Fin w ->
  canvasHeight s = Fin h ->
  joints (simulateJointDetection (Fin t) s)
  = mkJoints
      (pt (w / 2) (h / 2 - 80 + sin (t / 1000) * 10))
      (pt (w / 2 + 60) (h / 2 - 40 + sin (t / 1000 * (3 / 2)) * 20))
      (pt (w / 2 + 100) (h / 2 + sin (t / 1000 * 2) * 30))
      (pt (w / 2) (h / 2 + 50))
      (pt (w / 2 + 30) (h / 2 + 120 + sin (t / 1000) * 10))
      (pt (w / 2 + 60) (h / 2 + 180)).
Proof.
  intros Hw Hh. unfold simulateJointDetection. rewrite Hw, Hh.
  cbn. cmp. reflexivity.
Qed.

(** The elbow is at a finite point only for a finite canvas and time. *)
Lemma simulated_elbow_finite (now : number) (s : State) (a b : R) :
  x (elbows (joints (simulateJointDetection now s))) = Fin a ->
  y (elbows (joints (simulateJointDetection now s))) = Fin b ->
  exists w h t : R,
    canvasWidth s = Fin w /\ canvasHeight s = Fin h /\ now = Fin t.
Proof.
  unfold simulateJointDetection. cbn [joints set_joints elbows x y].
  destruct (canvasWidth s) as [| [] | w], (canvasHeight s) as [| [] | h],
    now as [| [] | t];
    cbn; cmp; cbn; intros Hx Hy; try discriminate.
  exists w, h, t. repeat split.
Qed.

(** An angle whose two rays have a negative scalar product is obtuse. *)
Lemma calculateJointAngle_obtuse (x1 y1 x2 y2 x3 y3 : R) :
  (x1, y1) <> (x2, y2) ->
  (x3, y3) <> (x2, y2) ->
  (x1 - x2) * (x3 - x2) + (y1 - y2) * (y3 - y2) < 0 ->
  exists deg : R,
    90 < deg <= 180 /\
    calculateJointAngle (Fin x1) (Fin y1) (Fin x2) (Fin y2) (Fin x3) (Fin y3)
    = Fin deg.
Proof.
  intros H1 H3 Hdot.
  destruct (calculateJointAngle_nondegenerate x1 y1 x2 y2 x3 y3 H1 H3)
    as [E [_ B]].
  destruct (cosine_in_range x1 y1 x2 y2 x3 y3 H1 H3) as [Hd [Hlo Hhi]].
  cbv zeta in E, B, Hd, Hlo, Hhi.
  set (a := dist x2 y2 x3 y3) in *.
  set (b := dist x1 y1 x3 y3) in *.
  set (c := dist x1 y1 x2 y2) in *.
  set (q := (a * a + c * c - b * b) / (2 * a * c)) in *.
  eexists. split; [| exact E]. split; [| exact B].
  assert (Hn : a * a + c * c - b * b
               = 2 * ((x1 - x2) * (x3 - x2) + (y1 - y2) * (y3 - y2))).
  { unfold a, b, c. rewrite !dist_sqr. ring. }
  assert (Hq : q < 0).
  { unfold q. rewrite Hn. unfold Rdiv.
    pose proof (Rinv_0_lt_compat _ Hd) as Hinv. nra. }
  assert (Hacos : PI / 2 < acos q).
  { destruct (Rlt_dec (PI / 2) (acos q)) as [Hlt | Hge]; [exact Hlt |].
    exfalso.
    pose proof (acos_bound q) as [A0 A1].
    pose proof PI_RGT_0 as Hpi.
    assert (Hcos : 0 <= cos (acos q)) by (apply cos_ge_0; lra).
    rewrite cos_acos in Hcos by lra. lra. }
  pose proof PI_RGT_0 as Hpi.
  assert (Hk : 0 < 180 / PI) by (apply Rdiv_lt_0_compat; lra).
  replace 90 with (PI / 2 * (180 / PI)) by (field; lra).
  apply Rmult_lt_compat_r; assumption.
Qed.

(** For a finite canvas and time the rounded elbow angle is a whole number
    of degrees from 90 to 180. *)
Lemma simulated_angle_finite (w h t : R) (s : State) :
  canvasWidth s = Fin w ->
  canvasHeight s = Fin h ->
  exists z : Z,
    (90 <= z <= 180)%Z /\
    Math_round (elbowAngle (joints (simulateJointDetection (Fin t) s)))
    = Fin (IZR z).
Proof.
  intros Hw Hh. rewrite (simulated_joints_finite w h t s Hw Hh).
  unfold elbowAngle, pt. cbn [shoulders elbows wrists x y].
  set (s1 := sin (t / 1000)).
  set (s2 := sin (t / 1000 * (3 / 2))).
  set (s3 := sin (t / 1000 * 2)).
  assert (B1 : -1 <= s1 <= 1) by apply SIN_bound.
  assert (B2 : -1 <= s2 <= 1) by apply SIN_bound.
  assert (B3 : -1 <= s3 <= 1) by apply SIN_bound.
  destruct (calculateJointAngle_obtuse
              (w / 2) (h / 2 - 80 + s1 * 10)
              (w / 2 + 60) (h / 2 - 40 + s2 * 20)
              (w / 2 + 100) (h / 2 + s3 * 30)) as (deg & [D0 D1] & E).
  - intros H. injection H. intros _ Hx. lra.
  - intros H. injection H. intros _ Hx. lra.
  - set (uy := h / 2 - 80 + s1 * 10 - (h / 2 - 40 + s2 * 20)).
    set (wy := h / 2 + s3 * 30 - (h / 2 - 40 + s2 * 20)).
    assert (Hu : -70 <= uy <= -10) by (unfold uy; lra).
    assert (Hv : -10 <= wy <= 90) by (unfold wy; lra).
    assert (Hp : uy * wy <= 700).
    { destruct (Rle_dec 0 wy) as [Hpos | Hneg]; nra. }
    lra.
  - rewrite E. apply (Math_round_range deg 90 180); cbn; lra.
Qed.

(** For every canvas size and time, the rounded elbow angle is a whole
    number of degrees from 90 to 180 when they are finite and [NaN] when
    one of them is not. *)
Lemma simulated_angle_cases (now : number) (s : State) :
  Math_round (elbowAngle (joints (simulateJointDetection now s))) = NaN \/
  exists z : Z,
    (90 <= z <= 180)%Z /\
    Math_round (elbowAngle (joints (simulateJointDetection now s)))
    = Fin (IZR z).
Proof.
  set (j := joints (simulateJointDetection now s)).
  destruct (side_class (x (elbows j)) (y (elbows j))
                       (x (wrists j)) (y (wrists j))) as [F | N].
  - destruct F as (a & b & _ & _ & Hx & Hy & _ & _).
    destruct (simulated_elbow_finite now s a b Hx Hy)
      as (w & h & t & Hw & Hh & ->).
    right. exact (simulated_angle_finite w h t s Hw Hh).
  - left.
    assert (E : elbowAngle j = NaN).
    { unfold elbowAngle, calculateJointAngle.
      rewrite acos_nonfinite_side; [reflexivity |].
      destruct N as [N | N]; [left | right; left]; exact N. }
    rewrite E. reflexivity.
Qed.

(** For every canvas size and time, finite or not, the frame is not
    classified Down. *)
Lemma simulated_never_down (now : number) (s : State) :
  poseStateOf (Math_round (elbowAngle (joints (simulateJointDetection now s))))
  <> Some down.
Proof.
  destruct (simulated_angle_cases now s) as [E | (z & [Hz _] & E)]; rewrite E.
  - cbn. discriminate.
  - rewrite poseStateOf_down_iff. apply IZR_le in Hz. lra.
Qed.

Lemma checkExerciseForm_currentAngle (s : State) :
  currentAngle (checkExerciseForm s) = currentAngle s.
Proof.
  unfold checkExerciseForm.
  destruct (ltb _ (Fin 90)); cbn.
  - rewrite andb_false_r. reflexivity.
  - destruct (gtb _ (Fin 160)); cbn.
    + destruct (is_pose _ down); reflexivity.
    + rewrite andb_false_r. reflexivity.
Qed.

Lemma detectPose_running (now : number) (s : State) :
  isRunning s = true ->
  currentAngle (detectPose now s)
  = Math_round (elbowAngle (joints (simulateJointDetection now s))) /\
  lastPoseState (detectPose now s)
  = poseStateOf
      (Math_round (elbowAngle (joints (simulateJointDetection now s)))) /\
  repsCount (detectPose now s)
  = if is_pose (lastPoseState s) down
       && is_pose (lastPoseState (detectPose now s)) up
    then (repsCount s + 1)%N else repsCount s.
Proof.
  intros Hrun. unfold detectPose. rewrite Hrun. cbn [negb].
  rewrite checkExerciseForm_currentAngle, checkExerciseForm_lastPoseState,
    checkExerciseForm_repsCount.
  repeat split.
Qed.

Lemma detectPose_angleLabel (now : number) (s : State) :
  isRunning s = true ->
  angleLabel (detectPose now s) = currentAngle (detectPose now s).
Proof.
  intros Hrun. unfold detectPose. rewrite Hrun. cbn [negb].
  unfold checkExerciseForm, calculateAngle, storeAngle. cbn.
  destruct (ltb _ (Fin 90)); cbn.
  - rewrite andb_false_r. reflexivity.
  - destruct (gtb _ (Fin 160)); cbn.
    + destruct (is_pose _ down); reflexivity.
    + rewrite andb_false_r. reflexivity.
Qed.

(** X7: in a running session, whatever the canvas size and the time,
    every frame stores in [currentAngle], and shows, either [NaN] or a
    whole number of degrees from 90 to 180: the simulated elbow is never
    seen bent to less than 90 degrees. *)
Theorem simulated_angle_from_90_to_180 (now : number) (s : State) :
  isRunning s = true ->
  angleLabel (detectPose now s) = currentAngle (detectPose now s) /\
  (currentAngle (detectPose now s) = NaN \/
   exists z : Z,
     (90 <= z <= 180)%Z /\ currentAngle (detectPose now s) = Fin (IZR z)).
Proof.
  intros Hrun.
  split; [apply detectPose_angleLabel, Hrun |].
  destruct (detectPose_running now s Hrun) as (Hc & _ & _).
  rewrite Hc. apply simulated_angle_cases.
Qed.

Lemma simulated_angle_from_90_to_180_witness :
  currentAngle
    (detectPose (Fin 0) (onloadedmetadata (Fin 640) (Fin 480) 0 fresh))
  = NaN \/
  exists z : Z,
    (90 <= z <= 180)%Z /\
    currentAngle
      (detectPose (Fin 0) (onloadedmetadata (Fin 640) (Fin 480) 0 fresh))
    = Fin (IZR z).
Proof.
  exact (proj2 (simulated_angle_from_90_to_180 (Fin 0)
                  (onloadedmetadata (Fin 640) (Fin 480) 0 fresh) eq_refl)).
Defined.

Lemma detectPose_never_down (now : number) (s : State) :
  isRunning s = true ->
  lastPoseState (detectPose now s) <> Some down /\
  (lastPoseState s <> Some down ->
   repsCount (detectPose now s) = repsCount s).
Proof.
  intros Hrun.
  destruct (detectPose_running now s Hrun) as (_ & Hl & Hc).
  split.
  - rewrite Hl. apply simulated_never_down.
  - intros Hnd. rewrite Hc.
    destruct (lastPoseState s) as [[|]|]; cbn;
      [contradiction Hnd; reflexivity | reflexivity | reflexivity].
Qed.

(** X8: a frame of a running session never records Down, whatever the
    canvas size and the time, finite or not; so it never counts a rep
    unless Down was recorded before the session's frames. *)
Theorem simulated_frame_never_down (now : number) (s : State) :
  isRunning s = true ->
  lastPoseState (detectPose now s) <> Some down /\
  (lastPoseState s <> Some down ->
   repsCount (detectPose now s) = repsCount s).
Proof.
  intros Hrun.
  destruct (detectPose_running now s Hrun) as (_ & Hl & Hc).
  split.
  - rewrite Hl. apply simulated_never_down.
  - intros Hnd. rewrite Hc.
    destruct (lastPoseState s) as [[|]|]; cbn;
      [contradiction Hnd; reflexivity | reflexivity | reflexivity].
Qed.

Lemma simulated_frame_never_down_witness :
  repsCount
    (detectPose (Fin 0) (onloadedmetadata (Fin 640) (Fin 480) 0 fresh))
  = repsCount (onloadedmetadata (Fin 640) (Fin 480) 0 fresh).
Proof.
  refine (proj2 (simulated_frame_never_down (Fin 0)
                   (onloadedmetadata (Fin 640) (Fin 480) 0 fresh) eq_refl)
                _).
  discriminate.
Defined.

Lemma step_never_down (e : Event) (s : State) :
  lastPoseState s <> Some down ->
  lastPoseState (step e s) <> Some down /\
  repsCount (step e s) = repsCount s /\
  repsCountText (step e s) = repsCountText s.
Proof.
  intros Hnd. destruct e as [granted | w h now | | now]; cbn [step].
  - destruct granted; repeat split; exact Hnd.
  - repeat split; exact Hnd.
  - repeat split; exact Hnd.
  - destruct (isRunning s) eqn:Hrun.
    + destruct (detectPose_never_down now s Hrun) as [H1 H2].
      split; [exact H1 |]. split; [apply H2, Hnd |].
      unfold detectPose. rewrite Hrun. cbn [negb].
      unfold checkExerciseForm, calculateAngle, storeAngle. cbn.
      destruct (ltb _ (Fin 90)); cbn.
      * rewrite andb_false_r. reflexivity.
      * destruct (gtb _ (Fin 160)); cbn.
        -- destruct (lastPoseState s) as [[|]|]; cbn;
             [contradiction Hnd; reflexivity | reflexivity | reflexivity].
        -- rewrite andb_false_r. reflexivity.
    + unfold detectPose. rewrite Hrun. cbn [negb].
      repeat split; exact Hnd.
Qed.

(** X9: the program as written never counts a rep: from the loaded page,
    after any trace of start, metadata, stop and frame events, [repsCount]
    and the count shown are 0 and Down is not the recorded phase.  More
    generally, from any state in which Down is not recorded, no trace
    changes [repsCount]. *)
Theorem program_never_counts (trace : list Event) (s : State)
    (w h : number) (cls : string) :
  lastPoseState s <> Some down ->
  repsCount (run trace s) = repsCount s /\
  repsCount (run trace (loaded w h cls)) = 0%N /\
  repsCountText (run trace (loaded w h cls)) = 0%N /\
  lastPoseState (run trace (loaded w h cls)) <> Some down.
Proof.
  assert (Hrun : forall t s0,
            lastPoseState s0 <> Some down ->
            lastPoseState (run t s0) <> Some down /\
            repsCount (run t s0) = repsCount s0 /\
            repsCountText (run t s0) = repsCountText s0).
  { induction t as [| e rest IH]; intros s0 H0; simpl.
    - repeat split; exact H0.
    - destruct (step_never_down e s0 H0) as (H1 & H2 & H3).
      destruct (IH (step e s0) H1) as (H4 & H5 & H6).
      repeat split; [exact H4 | congruence | congruence]. }
  intros Hnd.
  split; [apply (Hrun trace s Hnd) |].
  assert (Hl : lastPoseState (loaded w h cls) <> Some down) by discriminate.
  destruct (Hrun trace (loaded w h cls) Hl) as (H1 & H2 & H3).
  repeat split; [rewrite H2 | rewrite H3 | exact H1]; reflexivity.
Qed.

Lemma program_never_counts_witness :
  repsCount
    (run [StartClicked true; MetadataLoaded (Fin 640) (Fin 480) 0;
          Frame (Fin 0); Frame (Fin 16); StopClicked] fresh)
  = repsCount fresh.
Proof.
  refine (proj1 (program_never_counts
                   [StartClicked true; MetadataLoaded (Fin 640) (Fin 480) 0;
                    Frame (Fin 0); Frame (Fin 16); StopClicked]
                   fresh (Fin 640) (Fin 480) "feedback-text" _)).
  discriminate.
Defined.

(** ** Strings *)

Lemma length_append (a b : string) :
  String.length (append a b) = (String.length a + String.length b)%nat.
Proof. induction a as [| c a IH]; simpl; [reflexivity | now rewrite IH]. Qed.

Lemma append_assoc (a b c : string) :
  append (append a b) c = append a (append b c).
Proof. induction a as [| ch a IH]; simpl; [reflexivity | now rewrite IH]. Qed.

(** Two texts that end with parts of the same length are equal part by
    part. *)
Lemma append_inj (a b c d : string) :
  String.length c = String.length d ->
  append a c = append b d -> a = b /\ c = d.
Proof.
  revert b. induction a as [| ch a IH]; intros b Hlen E.
  - destruct b as [| ch' b]; simpl in E.
    + split; [reflexivity | exact E].
    + exfalso. rewrite E in Hlen. simpl in Hlen.
      rewrite length_append in Hlen. lia.
  - destruct b as [| ch' b]; simpl in E.
    + exfalso. rewrite <- E in Hlen. simpl in Hlen.
      rewrite length_append in Hlen. lia.
    + injection E as -> E. destruct (IH b Hlen E) as [-> ->].
      split; reflexivity.
Qed.

(** ** Decimal numerals *)

Lemma numberToString_nonneg (z : Z) :
  (0 <= z)%Z ->
  exists d : uint,
    numberToString z = NilEmpty.string_of_uint d /\
    d <> Nil /\ Z.of_uint d = z.
Proof.
  intros Hz. destruct z as [| p | p]; [| | lia].
  - exists (D0 Nil). repeat split. discriminate.
  - exists (Pos.to_uint p). split; [| split].
    + unfold numberToString. cbn. unfold NilZero.string_of_uint.
      pose proof (Unsigned.to_uint_nonnil p) as Hn.
      destruct (Pos.to_uint p); [contradiction Hn; reflexivity | ..];
        reflexivity.
    + apply Unsigned.to_uint_nonnil.
    + exact (DecimalZ.of_to (Z.pos p)).
Qed.

Lemma string_of_uint_length (d : uint) :
  d <> Nil -> (1 <= String.length (NilEmpty.string_of_uint d))%nat.
Proof. destruct d; intros H; simpl; try lia. contradiction H; reflexivity. Qed.

Lemma numberToString_neg (p : positive) :
  exists rest : string,
    numberToString (Z.neg p) = String "-" rest /\
    (1 <= String.length rest)%nat.
Proof.
  exists (NilZero.string_of_uint (Pos.to_uint p)). split; [reflexivity |].
  pose proof (Unsigned.to_uint_nonnil p) as Hn.
  unfold NilZero.string_of_uint.
  destruct (Pos.to_uint p) eqn:E; [contradiction Hn; reflexivity | ..];
    rewrite <- E; apply string_of_uint_length; rewrite E; discriminate.
Qed.

Lemma readNumber_numberToString (z : Z) :
  readNumber (numberToString z) = Some z.
Proof.
  unfold readNumber, numberToString.
  rewrite NilZero.isi.
  - cbn. f_equal. apply DecimalZ.of_to.
  - destruct z; cbn; try discriminate.
    intros [= E]. exact (Unsigned.to_uint_nonnil _ E).
  - destruct z; cbn; try discriminate.
    intros [= E]. exact (Unsigned.to_uint_nonnil _ E).
Qed.

Lemma readNumber_leading_zero (z : Z) :
  (0 <= z)%Z -> readNumber (String "0" (numberToString z)) = Some z.
Proof.
  intros Hz. destruct (numberToString_nonneg z Hz) as (d & -> & Hd & <-).
  unfold readNumber. cbn.
  rewrite NilEmpty.usu. reflexivity.
Qed.

(** A decimal numeral padded to two characters reads back as the number
    it was made from. *)
Lemma readNumber_padStart (z : Z) :
  readNumber (padStart 2 "0" (numberToString z)) = Some z.
Proof.
  unfold padStart.
  destruct z as [| p | p].
  - reflexivity.
  - destruct (numberToString_nonneg (Z.pos p)) as (d & E & Hd & Hv); [lia |].
    pose proof (string_of_uint_length d Hd) as Hlen.
    destruct (String.length (numberToString (Z.pos p))) as [| [| n]] eqn:L.
    + rewrite E in L. lia.
    + cbn [Nat.sub repeatChar append]. apply readNumber_leading_zero. lia.
    + cbn [Nat.sub repeatChar append]. apply readNumber_numberToString.
  - destruct (numberToString_neg p) as (rest & E & Hlen).
    rewrite E. cbn [String.length].
    destruct (String.length rest) as [| n]; [lia |].
    cbn [Nat.sub repeatChar append]. rewrite <- E.
    apply readNumber_numberToString.
Qed.

Lemma padStart_length (z : Z) :
  (2 <= String.length (padStart 2 "0" (numberToString z)))%nat.
Proof.
  unfold padStart. rewrite length_append.
  destruct (String.length (numberToString z)) as [| [| n]]; cbn; lia.
Qed.

Lemma two_digits (r : Z) :
  (0 <= r < 60)%Z ->
  String.length (padStart 2 "0" (numberToString r)) = 2%nat.
Proof.
  intros Hr.
  assert (Hall : forallb
            (fun n => Nat.eqb
               (String.length (padStart 2 "0" (numberToString (Z.of_nat n))))
               2)
            (seq 0 60) = true) by (vm_compute; reflexivity).
  rewrite forallb_forall in Hall.
  specialize (Hall (Z.to_nat r)).
  rewrite Z2Nat.id in Hall by lia.
  apply Nat.eqb_eq, Hall, in_seq. lia.
Qed.

(** ** Timer *)

Lemma updateTimer_started (c start : Z) (s : State) (shown : string) :
  startTime s = Some start ->
  updateTimer c s shown
  = append (padStart 2 "0" (numberToString ((c - start) / 1000 / 60)))
      (append ":"
         (padStart 2 "0" (numberToString (Z.rem ((c - start) / 1000) 60)))).
Proof. intros H. unfold updateTimer. rewrite H. reflexivity. Qed.

Lemma elapsed_nonneg (c start : Z) :
  (start <= c)%Z -> (0 <= (c - start) / 1000)%Z.
Proof. intros H. apply Z.div_pos; lia. Qed.

Lemma rem_nonneg (e : Z) :
  (0 <= e)%Z ->
  (0 <= Z.rem e 60 < 60)%Z /\ (60 * (e / 60) + Z.rem e 60 = e)%Z.
Proof.
  intros He. rewrite Z.rem_mod_nonneg by lia.
  split; [apply Z.mod_pos_bound; lia |].
  symmetry. apply Z.div_mod. lia.
Qed.

(** X10: once a session has started and the clock is not behind
    [startTime], [updateTimer] shows the elapsed whole seconds as minutes,
    a colon and seconds: the minutes field has at least two characters, the
    seconds field exactly two, they read back as the numbers [m] and [r]
    with [r] below 60, and [60 m + r] is the elapsed time. *)
Theorem updateTimer_shows_elapsed (c start : Z) (s : State)
    (shown : string) :
  startTime s = Some start ->
  (start <= c)%Z ->
  exists (mm ss : string) (m r : Z),
    updateTimer c s shown = append mm (append ":" ss) /\
    (2 <= String.length mm)%nat /\
    String.length ss = 2%nat /\
    readNumber mm = Some m /\
    readNumber ss = Some r /\
    (0 <= r < 60)%Z /\
    (60 * m + r)%Z = ((c - start) / 1000)%Z.
Proof.
  intros Hs Hc.
  pose proof (elapsed_nonneg c start Hc) as He.
  destruct (rem_nonneg _ He) as [Hr Hsum].
  exists (padStart 2 "0" (numberToString ((c - start) / 1000 / 60))),
    (padStart 2 "0" (numberToString (Z.rem ((c - start) / 1000) 60))),
    ((c - start) / 1000 / 60)%Z, (Z.rem ((c - start) / 1000) 60).
  split; [apply updateTimer_started, Hs |].
  split; [apply padStart_length |].
  split; [apply two_digits, Hr |].
  split; [apply readNumber_padStart |].
  split; [apply readNumber_padStart |].
  split; assumption.
Qed.

Lemma updateTimer_shows_elapsed_witness :
  exists (mm ss : string) (m r : Z),
    updateTimer 125000 (onloadedmetadata (Fin 640) (Fin 480) 0 fresh) "00:00"
    = append mm (append ":" ss) /\
    (2 <= String.length mm)%nat /\
    String.length ss = 2%nat /\
    readNumber mm = Some m /\
    readNumber ss = Some r /\
    (0 <= r < 60)%Z /\
    (60 * m + r)%Z = ((125000 - 0) / 1000)%Z.
Proof.
  apply (updateTimer_shows_elapsed 125000 0
           (onloadedmetadata (Fin 640) (Fin 480) 0 fresh) "00:00");
    [reflexivity | lia].
Defined.

(** The display after two minutes and five seconds. *)
Lemma updateTimer_125_seconds :
  updateTimer 125000 (onloadedmetadata (Fin 640) (Fin 480) 0 fresh) "00:00"
  = "02:05"%string.
Proof. vm_compute. reflexivity. Qed.

(** X11: two clock readings at or after [startTime] give the same timer
    text only if they are in the same elapsed second: the text determines
    the elapsed time. *)
Theorem updateTimer_injective (c1 c2 start : Z) (s : State)
    (shown1 shown2 : string) :
  startTime s = Some start ->
  (start <= c1)%Z ->
  (start <= c2)%Z ->
  updateTimer c1 s shown1 = updateTimer c2 s shown2 ->
  ((c1 - start) / 1000)%Z = ((c2 - start) / 1000)%Z.
Proof.
  intros Hs H1 H2 E.
  rewrite !(updateTimer_started _ start s _ Hs) in E.
  set (e1 := ((c1 - start) / 1000)%Z) in *.
  set (e2 := ((c2 - start) / 1000)%Z) in *.
  assert (He1 : (0 <= e1)%Z) by (apply elapsed_nonneg, H1).
  assert (He2 : (0 <= e2)%Z) by (apply elapsed_nonneg, H2).
  destruct (rem_nonneg e1 He1) as [Hr1 Hsum1].
  destruct (rem_nonneg e2 He2) as [Hr2 Hsum2].
  rewrite <- !append_assoc in E.
  apply append_inj in E;
    [| rewrite !two_digits by assumption; reflexivity].
  destruct E as [Em Es].
  apply append_inj in Em; [| reflexivity].
  destruct Em as [Em _].
  assert (Hm : Some (e1 / 60)%Z = Some (e2 / 60)%Z).
  { rewrite <- (readNumber_padStart (e1 / 60)),
      <- (readNumber_padStart (e2 / 60)), Em. reflexivity. }
  assert (Hr : Some (Z.rem e1 60) = Some (Z.rem e2 60)).
  { rewrite <- (readNumber_padStart (Z.rem e1 60)),
      <- (readNumber_padStart (Z.rem e2 60)), Es. reflexivity. }
  injection Hm as Hm. injection Hr as Hr. lia.
Qed.

Lemma updateTimer_injective_witness :
  ((125000 - 0) / 1000)%Z = ((125999 - 0) / 1000)%Z.
Proof.
  apply (updateTimer_injective 125000 125999 0
           (onloadedmetadata (Fin 640) (Fin 480) 0 fresh) "00:00" "00:00");
    [reflexivity | lia | lia | vm_compute; reflexivity].
Defined.

Lemma padStart_negative (z : Z) :
  (z < 0)%Z ->
  exists rest : string,
    padStart 2 "0" (numberToString z) = String "-" rest.
Proof.
  intros Hz. destruct z as [| p | p]; try lia.
  destruct (numberToString_neg p) as (rest & E & Hlen).
  unfold padStart. rewrite E. cbn [String.length].
  destruct (String.length rest) as [| n]; [lia |].
  cbn [Nat.sub repeatChar append]. exists rest. reflexivity.
Qed.

(** The display when the clock is half a second behind [startTime]. *)
Lemma updateTimer_half_second_behind :
  updateTimer 4500 (onloadedmetadata (Fin 640) (Fin 480) 5000 fresh) "00:00"
  = "-1:-1"%string.
Proof. vm_compute. reflexivity. Qed.

(** X12: when the clock reads earlier than [startTime], [updateTimer]
    shows a minutes field that begins with a minus sign and reads back as
    the elapsed seconds divided by 60 and rounded down, then a colon and a
    seconds field that reads back as a number [r] from -59 to 0 with the
    sign of the elapsed time.  Unless [r] is 0 the seconds field begins
    with a minus sign too and the two fields add up to 60 seconds less than
    the elapsed time; when [r] is 0 the seconds field is 00 and the minutes
    are exact.  With no [startTime] the text is left as it is. *)
Theorem updateTimer_clock_behind (c start : Z) (s : State)
    (shown : string) :
  startTime s = Some start ->
  (c < start)%Z ->
  (exists (mm ss : string) (m r : Z),
     updateTimer c s shown = append mm (append ":" ss) /\
     (exists rest : string, mm = String "-" rest) /\
     readNumber mm = Some m /\
     readNumber ss = Some r /\
     m = ((c - start) / 1000 / 60)%Z /\
     (m < 0)%Z /\
     (-60 < r <= 0)%Z /\
     (r <> 0%Z ->
      (60 * m + r = (c - start) / 1000 - 60)%Z /\
      exists rest : string, ss = String "-" rest) /\
     (r = 0%Z -> (60 * m = (c - start) / 1000)%Z /\ ss = "00"%string)) /\
  (forall s' : State, startTime s' = None -> updateTimer c s' shown = shown).
Proof.
  intros Hs Hc.
  set (e := ((c - start) / 1000)%Z).
  assert (He : (e < 0)%Z).
  { unfold e. apply Z.div_lt_upper_bound; lia. }
  assert (Hm : (e / 60 < 0)%Z) by (apply Z.div_lt_upper_bound; lia).
  pose proof (Z.rem_bound_pos_neg e 60 ltac:(lia) ltac:(lia)) as Hb.
  pose proof (Z.quot_rem' e 60) as Hq.
  pose proof (Z.div_mod e 60 ltac:(lia)) as Hd.
  pose proof (Z.mod_pos_bound e 60 ltac:(lia)) as Hmod.
  split.
  - exists (padStart 2 "0" (numberToString (e / 60))),
      (padStart 2 "0" (numberToString (Z.rem e 60))),
      (e / 60)%Z, (Z.rem e 60).
    split; [apply updateTimer_started, Hs |].
    split; [apply padStart_negative, Hm |].
    split; [apply readNumber_padStart |].
    split; [apply readNumber_padStart |].
    split; [reflexivity |].
    split; [exact Hm |].
    split; [exact Hb |].
    split.
    + intros Hr. split; [lia |]. apply padStart_negative. lia.
    + intros Hr. split; [lia |]. rewrite Hr. reflexivity.
  - intros s' Hn. unfold updateTimer. rewrite Hn. reflexivity.
Qed.

Lemma updateTimer_clock_behind_witness :
  exists (mm ss : string) (r : Z),
    updateTimer 4500 (onloadedmetadata (Fin 640) (Fin 480) 5000 fresh) "00:00"
    = append mm (append ":" ss) /\
    readNumber ss = Some r /\
    (-60 < r <= 0)%Z.
Proof.
  destruct (updateTimer_clock_behind 4500 5000
              (onloadedmetadata (Fin 640) (Fin 480) 5000 fresh) "00:00"
              eq_refl ltac:(lia))
    as [(mm & ss & m & r & E & _ & _ & Hr & _ & _ & Hb & _) _].
  exists mm, ss, r. repeat split; try assumption; apply Hb.
Defined.

(** ** Exercise details *)

Lemma lookup_known (v : string) :
  (exists e : Exercise, lookup v exerciseData = Some e) <-> In v variations.
Proof.
  unfold exerciseData, variations. cbn [lookup In].
  destruct (String.eqb_spec v "standard") as [-> | N1];
    [split; [intros _; left; reflexivity | intros _; eexists; reflexivity] |].
  destruct (String.eqb_spec v "wide") as [-> | N2];
    [split; [intros _; right; left; reflexivity
            | intros _; eexists; reflexivity] |].
  destruct (String.eqb_spec v "diamond") as [-> | N3];
    [split; [intros _; do 2 right; left; reflexivity
            | intros _; eexists; reflexivity] |].
  destruct (String.eqb_spec v "incline") as [-> | N4];
    [split; [intros _; do 3 right; left; reflexivity
            | intros _; eexists; reflexivity] |].
  destruct (String.eqb_spec v "decline") as [-> | N5];
    [split; [intros _; do 4 right; left; reflexivity
            | intros _; eexists; reflexivity] |].
  split.
  - intros [e H]. discriminate H.
  - intros [H | [H | [H | [H | [H | []]]]]]; symmetry in H; contradiction.
Qed.

Lemma lookup_In (v : string) (e : Exercise) :
  lookup v exerciseData = Some e -> In (v, e) exerciseData.
Proof.
  unfold exerciseData. cbn [lookup In].
  destruct (String.eqb_spec v "standard") as [-> | N1];
    [intros [= <-]; left; reflexivity |].
  destruct (String.eqb_spec v "wide") as [-> | N2];
    [intros [= <-]; right; left; reflexivity |].
  destruct (String.eqb_spec v "diamond") as [-> | N3];
    [intros [= <-]; do 2 right; left; reflexivity |].
  destruct (String.eqb_spec v "incline") as [-> | N4];
    [intros [= <-]; do 3 right; left; reflexivity |].
  destruct (String.eqb_spec v "decline") as [-> | N5];
    [intros [= <-]; do 4 right; left; reflexivity |].
  discriminate.
Qed.

Lemma appendTips_set (l : list string) (d : Details) :
  appendTips l d = set_formTips (formTips d ++ l) d.
Proof.
  revert d. induction l as [| tip rest IH]; intros d.
  - destruct d. cbn. rewrite app_nil_r. reflexivity.
  - cbn [appendTips]. rewrite IH. destruct d. cbn.
    rewrite <- app_assoc. reflexivity.
Qed.

(** The page after a successful update, field by field. *)
Lemma updateExerciseDetails_result (v : string) (d : Details) :
  updateExerciseDetails v d
  = option_map
      (fun data =>
         mkDetails (title data) (description data) (image data) (title data)
           (tips data)
           (percent (arms (bodyFocus data))) (percent (arms (bodyFocus data)))
           (percent (chest (bodyFocus data)))
           (percent (chest (bodyFocus data)))
           (percent (core (bodyFocus data))) (percent (core (bodyFocus data))))
      (lookup v exerciseData).
Proof.
  unfold updateExerciseDetails.
  destruct (lookup v exerciseData) as [data |]; [| reflexivity].
  cbn [option_map]. rewrite appendTips_set. reflexivity.
Qed.

(** X13: [updateExerciseDetails] completes exactly for the five
    variations standard, wide, diamond, incline and decline; for any other
    string it raises the exception. *)
Theorem updateExerciseDetails_defined_iff (v : string) (d : Details) :
  ((exists d' : Details, updateExerciseDetails v d = Some d')
   <-> In v variations) /\
  (updateExerciseDetails v d = None <-> ~ In v variations).
Proof.
  rewrite updateExerciseDetails_result, <- lookup_known.
  destruct (lookup v exerciseData) as [data |]; cbn [option_map].
  - split; split.
    + intros _. eexists. reflexivity.
    + intros _. eexists. reflexivity.
    + discriminate.
    + intros H. contradiction H. eexists. reflexivity.
  - split; split.
    + intros [d' H]. discriminate H.
    + intros [e H]. discriminate H.
    + intros _ [e H]. discriminate H.
    + reflexivity.
Qed.

(** X14: a successful update overwrites every element it is responsible
    for, the tips list included (it is emptied before the new tips are
    appended).  So the result does not depend on what was shown before:
    showing one variation and then another gives the same page as showing
    the second directly, and showing the same variation twice changes
    nothing. *)
Theorem updateExerciseDetails_overwrites (v0 v : string) (d d0 d1 : Details) :
  updateExerciseDetails v0 d = Some d1 ->
  updateExerciseDetails v d = updateExerciseDetails v d0 /\
  updateExerciseDetails v d1 = updateExerciseDetails v d /\
  updateExerciseDetails v0 d1 = Some d1 /\
  (exists data : Exercise,
     lookup v0 exerciseData = Some data /\ formTips d1 = tips data).
Proof.
  intros H. rewrite updateExerciseDetails_result in H.
  destruct (lookup v0 exerciseData) as [data |] eqn:L; [| discriminate H].
  cbn [option_map] in H. injection H as <-.
  split; [rewrite !updateExerciseDetails_result; reflexivity |].
  split; [rewrite !updateExerciseDetails_result; reflexivity |].
  split; [rewrite updateExerciseDetails_result, L; reflexivity |].
  exists data. split; reflexivity.
Qed.

Lemma updateExerciseDetails_overwrites_witness :
  match shownAtLoad with
  | Some d1 =>
      updateExerciseDetails "diamond" d1
      = updateExerciseDetails "diamond" blankDetails
  | None => False
  end.
Proof.
  destruct shownAtLoad as [d1 |] eqn:E.
  - exact (proj1 (proj2 (updateExerciseDetails_overwrites "standard" "diamond"
                           blankDetails blankDetails d1 E))).
  - vm_compute in E. discriminate E.
Defined.

Lemma exerciseData_entries (v : string) (e : Exercise) :
  In (v, e) exerciseData ->
  (arms (bodyFocus e) <= 100)%N /\
  (chest (bodyFocus e) <= 100)%N /\
  (core (bodyFocus e) <= 100)%N /\
  List.length (tips e) = 4%nat.
Proof.
  unfold exerciseData. cbn [In].
  intros [H | [H | [H | [H | [H | []]]]]]; injection H as _ <-;
    cbn; repeat split; lia.
Qed.

(** X15: after a successful update the alternative text of the image is
    the title, each progress bar shows as text the width it was given, a
    percentage between 0% and 100%, and the tips list has four items. *)
Theorem updateExerciseDetails_consistent (v : string) (d d' : Details) :
  updateExerciseDetails v d = Some d' ->
  exerciseImageAlt d' = exerciseTitleText d' /\
  (exists a c k : N,
     (a <= 100 /\ c <= 100 /\ k <= 100)%N /\
     armsProgressWidth d' = percent a /\ armsProgressText d' = percent a /\
     chestProgressWidth d' = percent c /\ chestProgressText d' = percent c /\
     coreProgressWidth d' = percent k /\ coreProgressText d' = percent k) /\
  List.length (formTips d') = 4%nat.
Proof.
  intros H. rewrite updateExerciseDetails_result in H.
  destruct (lookup v exerciseData) as [data |] eqn:L; [| discriminate H].
  cbn [option_map] in H. injection H as <-.
  destruct (exerciseData_entries v data (lookup_In v data L))
    as (Ha & Hc & Hk & Ht).
  split; [reflexivity |]. split; [| exact Ht].
  exists (arms (bodyFocus data)), (chest (bodyFocus data)),
    (core (bodyFocus data)).
  repeat split; assumption.
Qed.

Lemma updateExerciseDetails_consistent_witness :
  match shownAtLoad with
  | Some d' => exerciseImageAlt d' = exerciseTitleText d'
  | None => False
  end.
Proof.
  destruct shownAtLoad as [d' |] eqn:E.
  - exact (proj1 (updateExerciseDetails_consistent "standard" blankDetails
                    d' E)).
  - vm_compute in E. discriminate E.
Defined.
